(** * Job pipeline of the security-report consolidator

    A shallow embedding of [app/main.py] and [app/report_generator.py]:
    the retry wrapper around the completion client, the background
    orchestrator [process_report_task], and the upload, download and
    stream endpoints over the process-wide [jobs] dictionary.

    Conventions.
    - A Python [str] is a [string]; one [ascii] stands for one code point,
      so [String.length] is Python's [len] (exact for code points below
      256).
    - Python [int] is [Z] where the code lets it be negative
      ([max_attempts]) and [nat] where it is a length or an index.
    - [random.uniform(0, 1)] and the waiting times are rationals; floating
      point rounding is not modelled.
    - The completion client and the random source are oracles, indexed by
      the number of requests and draws made so far.
    - [logging] calls have no effect on any job and are left out. *)

From Stdlib Require Import String Ascii List ZArith QArith Lia Lqa DecimalString.
From stdpp Require Import gmap strings list sorting.
Import ListNotations.

Local Open Scope string_scope.
Local Open Scope nat_scope.
Local Open Scope list_scope.

(* ===================================================================== *)
(** ** Python strings *)
(* ===================================================================== *)

Module Py.

Definition chr (n : nat) : string := String (ascii_of_nat n) EmptyString.

(** The line feed and the double quote, which have no literal form. *)
Definition LF : string := chr 10.
Definition DQ : string := chr 34.

Definition len (s : string) : nat := String.length s.

(** Truthiness of a [str] and of an [Optional[str]]. *)
Definition truthy (s : string) : bool :=
  match s with EmptyString => false | String _ _ => true end.

Definition truthy_opt (o : option string) : bool :=
  match o with None => false | Some s => truthy s end.

(** [str(n)] for a non-negative integer. *)
Definition str_of_nat (n : nat) : string :=
  NilEmpty.string_of_uint (Nat.to_uint n).

(** The digit grouping of the format specification [:,]. *)
Fixpoint group_thousands (digits : string) : string :=
  match digits with
  | EmptyString => EmptyString
  | String c rest =>
      String c
        (if (0 <? String.length rest) && (String.length rest mod 3 =? 0)
         then "," +:+ group_thousands rest
         else group_thousands rest)
  end.

(** [f"{n:,}"] *)
Definition format_comma (n : nat) : string := group_thousands (str_of_nat n).

(** [sep.join(parts)] *)
Definition join (sep : string) (parts : list string) : string :=
  String.concat sep parts.

(** [s[:n]] *)
Definition take (n : nat) (s : string) : string := substring 0 n s.

(** [s[n:]] *)
Fixpoint drop (n : nat) (s : string) : string :=
  match n, s with
  | O, _ => s
  | S _, EmptyString => EmptyString
  | S n', String _ s' => drop n' s'
  end.

(** [s.startswith(p)] *)
Definition startswith (p s : string) : bool := String.prefix p s.

(** [s.endswith(p)] *)
Definition endswith (p s : string) : bool :=
  (String.length p <=? String.length s)
  && String.eqb (drop (String.length s - String.length p) s) p.

(** [c.isspace()] on code points below 256. *)
Definition isspace (c : ascii) : bool :=
  let n := nat_of_ascii c in
  ((9 <=? n) && (n <=? 13)) || ((28 <=? n) && (n <=? 32))
  || (n =? 133) || (n =? 160).

Fixpoint lstrip (s : string) : string :=
  match s with
  | EmptyString => EmptyString
  | String c s' => if isspace c then lstrip s' else s
  end.

(** Drops trailing white space: a character is kept when something
    that is kept follows it, or when it is not white space itself. *)
Fixpoint rstrip (s : string) : string :=
  match s with
  | EmptyString => EmptyString
  | String c s' =>
      match rstrip s' with
      | EmptyString => if isspace c then EmptyString else String c EmptyString
      | r => String c r
      end
  end.

(** [s.strip()] *)
Definition strip (s : string) : string := rstrip (lstrip s).

(** [s.split(sep)] for a one-character separator: never empty. *)
Fixpoint split (sep : ascii) (s : string) : list string :=
  match s with
  | EmptyString => [EmptyString]
  | String c s' =>
      if Ascii.eqb c sep then EmptyString :: split sep s'
      else match split sep s' with
           | [] => [String c EmptyString]
           | piece :: pieces => String c piece :: pieces
           end
  end.

(** [c.lower()] on code points below 256. *)
Definition lower_char (c : ascii) : ascii :=
  let n := nat_of_ascii c in
  if ((65 <=? n) && (n <=? 90))
     || ((192 <=? n) && (n <=? 222) && negb (n =? 215))
  then ascii_of_nat (n + 32) else c.

Fixpoint lower (s : string) : string :=
  match s with
  | EmptyString => EmptyString
  | String c s' => String (lower_char c) (lower s')
  end.

(** [s] holds the character [c]. *)
Fixpoint contains (c : ascii) (s : string) : bool :=
  match s with
  | EmptyString => false
  | String c' s' => Ascii.eqb c c' || contains c s'
  end.

(** Two hexadecimal digits, as in [\xhh]. *)
Definition hex2 (n : nat) : string :=
  take 1 (drop (n / 16) "0123456789abcdef")
  +:+ take 1 (drop (n mod 16) "0123456789abcdef").

(** [c.isprintable()] on code points below 256. *)
Definition isprintable (c : ascii) : bool :=
  let n := nat_of_ascii c in
  ((32 <=? n) && (n <=? 126)) || ((161 <=? n) && negb (n =? 173)).

Definition repr_char (quote c : ascii) : string :=
  let n := nat_of_ascii c in
  if Ascii.eqb c quote || (n =? 92) then "\" +:+ String c EmptyString
  else if n =? 9 then "\t"
  else if n =? 10 then "\n"
  else if n =? 13 then "\r"
  else if isprintable c then String c EmptyString
  else "\x" +:+ hex2 n.

Fixpoint repr_chars (quote : ascii) (s : string) : string :=
  match s with
  | EmptyString => EmptyString
  | String c s' => repr_char quote c +:+ repr_chars quote s'
  end.

(** [repr(s)] of a [str]: in single quotes, or in double quotes when the
    text holds a single quote and no double quote. *)
Definition repr (s : string) : string :=
  let quote :=
    if contains (ascii_of_nat 39) s && negb (contains (ascii_of_nat 34) s)
    then ascii_of_nat 34 else ascii_of_nat 39 in
  String quote (repr_chars quote s) +:+ String quote EmptyString.

End Py.

(** [count_tokens], main.py line 124. *)
Definition count_tokens (text : string) : nat := Py.len text / 4.

(* ===================================================================== *)
(** ** The analysis prompt template *)
(* ===================================================================== *)

(** [PROMPT_TEMPLATE], main.py lines 27-98, around its one replacement
    field.  Line 39 of the source holds three code points above 127
    (U+00E2, U+20AC, U+2122); each is written as one character, so the
    length of the template is the source's. *)
Definition PROMPT_TEMPLATE_head : string :=
  "
You are an expert security analyst AI. Your task is to analyze the following consolidated application security scan reports (which may include Mend, Fortify, Contrast, SonarQube, or similar tools). Your analysis must be comprehensive, actionable, and tailored for both technical and business stakeholders.
Your assessment should be structured, data-driven, and visually engaging, using tables and graphs where possible. Draw clear, evidence-based conclusions and avoid generic or random recommendations.

INPUT:

Consolidated scan report content from up to four sources (at least one is mandatory).


OUTPUT REQUIREMENTS:
1. EXECUTIVE SUMMARY

Provide a concise overview of the application" +:+ Py.chr 226 +:+ Py.chr 128 +:+ Py.chr 153 +:+ "s security posture.
Highlight key risk indicators and trends observed across all scans.
Assign an overall security score or rating (with justification).
Summarize the most critical risks in a business-relevant manner.

2. DETAILED FINDINGS

List and describe all critical vulnerabilities, including their potential impact and exploitability.
Summarize medium and low severity issues, grouping by type and frequency.
Identify recurring patterns or systemic weaknesses across scans.
Flag likely false positives, explaining the rationale.
Use tables to present vulnerabilities by severity, type, and affected components.
Where possible, include graphs (e.g., bar charts for vulnerability counts, pie charts for severity distribution).

3. RISK ASSESSMENT

Present a risk prioritization matrix (e.g., heatmap or table) mapping vulnerabilities by likelihood and impact.
Analyze potential business impacts (e.g., data breach, compliance failure, operational disruption).
Discuss compliance implications (e.g., OWASP Top 10, PCI DSS, GDPR) and highlight any gaps.

4. RECOMMENDATIONS

Provide immediate actions for critical issues (with clear steps).
Outline a short-term remediation plan for high and medium risks.
Suggest long-term improvements to strengthen security posture (e.g., process, tooling, training).
Recommend best practices tailored to the observed issues and technology stack.
Ensure all recommendations are specific, actionable, and prioritized by risk and business impact.

5. METRICS, TRENDS & VISUALIZATIONS

Present key metrics:

Vulnerability counts by severity, type, and affected modules.
Trends over time (if historical data is present).
Comparison across different scan tools (highlighting discrepancies or tool-specific findings).


Use visualizations (tables, bar/pie charts, trend lines) to make data easily digestible.
Highlight any positive trends or improvements compared to previous scans (if data available).

6. CONCLUSION & NEXT STEPS

Summarize the top 3 actionable insights.
Recommend next steps for both technical and business teams.
Suggest follow-up assessments or monitoring if needed.


ADDITIONAL INSTRUCTIONS:

Base all conclusions and recommendations strictly on the data provided. Do not generate generic or random suggestions.
Cite specific evidence from the reports to support your findings.
Use clear, professional language suitable for both technical and executive audiences.
Where visualizations are suggested, describe them in Markdown (e.g., tables, chart descriptions) so they can be rendered or created by downstream tools.
If any required data is missing, clearly state the limitation and its impact on the analysis.


INPUT DATA:
".

Definition PROMPT_TEMPLATE_tail : string :=
  "
Begin your analysis below:
".

(** [PROMPT_TEMPLATE.format(consolidated_content=c)] *)
Definition PROMPT_TEMPLATE_format (consolidated_content : string) : string :=
  PROMPT_TEMPLATE_head +:+ consolidated_content +:+ PROMPT_TEMPLATE_tail.

(** main.py line 129. *)
Definition BASE_PROMPT_TOKENS : nat :=
  count_tokens (PROMPT_TEMPLATE_format "").

(* ===================================================================== *)
(** ** Jobs *)
(* ===================================================================== *)

(** An entry of [job["files"]]. *)
Record FileInfo := mkFileInfo { filename : string; content : string }.

(** An entry of [job["status_updates"]]: the dict
    [{"type": message_type, "content": message}]. *)
Record Update := mkUpdate { utype : string; ucontent : string }.

(** A value of the [jobs] dictionary. *)
Record Job := mkJob {
  files : list FileInfo;
  status_updates : list Update;
  is_complete : bool;
  report_content : option string
}.

(** An exception, by its class and its [str()]. *)
Record Exception := mkExc { exc_class : string; exc_str : string }.

Definition ValueError (msg : string) : Exception := mkExc "ValueError" msg.

Inductive Result (A : Type) : Type :=
| Ok (a : A)
| Raise (e : Exception).
Arguments Ok {A} a.
Arguments Raise {A} e.

(* ===================================================================== *)
(** ** Effects of the background task *)
(* ===================================================================== *)

#[local] Set Warnings "-register-all".

(** What one run of the task does, in order.  A call of the retry wrapper
    is one node that holds its arguments, what happened inside it and how
    it ended. *)
Inductive Action :=
| Request (prompt : string)        (* client.chat.completions.create *)
| Sleep (seconds : Q)              (* await asyncio.sleep(seconds) *)
| Append (u : Update)              (* job["status_updates"].append(u) *)
| SetReport (text : string)        (* job["report_content"] = text *)
| SetComplete                      (* job["is_complete"] = True *)
| Call (prompt : string) (max_attempts : Z)
       (inner : list Action) (outcome : Result string).

(** What the body of the [try] in the wrapper (lines 149-156) comes to:
    the message content of the first choice, which may be [None], or an
    exception. *)
Inductive Completion :=
| Content (c : option string)
| Fails (e : Exception).

(** The outside world of one run: the answer to the n-th request and the
    n-th value of [random.uniform(0, 1)]. *)
Record Env := mkEnv {
  ai : nat -> string -> Completion;
  uniform : nat -> Q
}.

(** How many requests and draws have been made. *)
Record Counters := mkCounters { requests : nat; draws : nat }.

Definition M (A : Type) : Type := Counters -> Result A * Counters * list Action.

Definition ret {A} (a : A) : M A := fun s => (Ok a, s, []).

Definition raise {A} (e : Exception) : M A := fun s => (Raise e, s, []).

Definition bind {A B} (m : M A) (f : A -> M B) : M B :=
  fun s =>
    match m s with
    | (Ok a, s1, t1) =>
        match f a s1 with (r, s2, t2) => (r, s2, t1 ++ t2) end
    | (Raise e, s1, t1) => (Raise e, s1, t1)
    end.

#[export] Instance M_ret : MRet M := @ret.
#[export] Instance M_bind : MBind M := fun A B f m => bind m f.

Definition emit (a : Action) : M unit := fun s => (Ok tt, s, [a]).

(** [try: body  except Exception as e: handler(e)] *)
Definition try_except {A} (body : M A) (handler : Exception -> M A) : M A :=
  fun s =>
    match body s with
    | (Ok a, s1, t1) => (Ok a, s1, t1)
    | (Raise e, s1, t1) =>
        match handler e s1 with (r, s2, t2) => (r, s2, t1 ++ t2) end
    end.

(** [try: body  finally: final] *)
Definition try_finally {A} (body : M A) (final : M unit) : M A :=
  fun s =>
    match body s with
    | (r, s1, t1) =>
        match final s1 with
        | (Ok _, s2, t2) => (r, s2, t1 ++ t2)
        | (Raise e, s2, t2) => (Raise e, s2, t1 ++ t2)
        end
    end.

Definition request (env : Env) (prompt : string) : M Completion :=
  fun s =>
    (Ok (ai env (requests s) prompt),
     mkCounters (S (requests s)) (draws s),
     [Request prompt]).

Definition random_uniform (env : Env) : M Q :=
  fun s =>
    (Ok (uniform env (draws s)), mkCounters (requests s) (S (draws s)), []).

Definition sleep (seconds : Q) : M unit := emit (Sleep seconds).

(* ===================================================================== *)
(** ** The retry wrapper *)
(* ===================================================================== *)

(** What [(2 ** attempt) + random.uniform(0, 1)] raises from
    [attempt = 1024] on: the integer is converted to a float for the
    sum, and [2 ** 1024] is past the largest float. *)
Definition overflow_error : Exception :=
  mkExc "OverflowError" "int too large to convert to float".

(** The body of [for attempt in range(max_attempts)], main.py lines
    147-164, over the attempts still to run.  The wait is computed
    inside the [except] block, so an exception there leaves the
    function. *)
Fixpoint retry_loop (env : Env) (prompt : string) (max_attempts : Z)
    (attempts : list nat) : M string :=
  match attempts with
  | [] => ret ""
  | attempt :: rest =>
      c ← request env prompt;
      match c with
      | Content content =>
          ret (if Py.truthy_opt content then default "" content else "")
      | Fails e =>
          if (Z.of_nat attempt =? max_attempts - 1)%Z then raise e
          else
            u ← random_uniform env;
            if 1024 <=? attempt then raise overflow_error
            else
              let wait_time := (inject_Z (2 ^ Z.of_nat attempt) + u)%Q in
              sleep wait_time;;
              retry_loop env prompt max_attempts rest
      end
  end.

(** [run_openai_with_retry], main.py line 145. *)
Definition run_openai_with_retry (env : Env) (prompt : string)
    (max_attempts : Z) : M string :=
  fun s =>
    match retry_loop env prompt max_attempts
            (seq 0 (Z.to_nat max_attempts)) s with
    | (r, s', inner) => (r, s', [Call prompt max_attempts inner r])
    end.

(* ===================================================================== *)
(** ** The background task *)
(* ===================================================================== *)

(** [update_status], main.py line 169. *)
Definition update_status (message : string) (message_type : string) : M unit :=
  emit (Append (mkUpdate message_type message)).

Definition summary_prompt (filename content_str : string) : string :=
  "Summarize all critical vulnerabilities from the file '" +:+ filename
  +:+ "'. TEXT: " +:+ content_str.

Definition tagged_summary (filename summary : string) : string :=
  "--- Summary from " +:+ filename +:+ " ---" +:+ Py.LF +:+ summary.

(** The loop over [job["files"]], main.py lines 175-184. *)
Fixpoint summarize_files (env : Env) (job_files : list FileInfo)
    (all_summaries : list string) : M (list string) :=
  match job_files with
  | [] => ret all_summaries
  | file_info :: rest =>
      update_status ("Summarizing file: " +:+ filename file_info +:+ "...")
        "status";;
      summary ← run_openai_with_retry env
                   (summary_prompt (filename file_info) (content file_info)) 3;
      let all_summaries :=
        all_summaries ++ [tagged_summary (filename file_info) summary] in
      sleep 5;;
      summarize_files env rest all_summaries
  end.

Definition final_prompt_of (all_summaries : list string) : string :=
  PROMPT_TEMPLATE_format (Py.join (Py.LF +:+ Py.LF) all_summaries).

Definition token_status (final_prompt : string) : string :=
  "Final prompt created with ~" +:+ Py.format_comma (count_tokens final_prompt)
  +:+ " tokens. Sending to OpenAI...".

Definition empty_response_error : Exception :=
  ValueError
    "The AI returned an empty response. This can be caused by content filters.".

(** The body of the [try], main.py lines 173-202. *)
Definition pipeline (env : Env) (job : Job) : M unit :=
  update_status
    "Starting consolidation process. Summarizing individual files..."
    "status";;
  all_summaries ← summarize_files env (files job) [];
  update_status
    "All summaries created. Generating final consolidated report..."
    "status";;
  let final_prompt := final_prompt_of all_summaries in
  update_status (token_status final_prompt) "status";;
  report_markdown ← run_openai_with_retry env final_prompt 5;
  if negb (Py.truthy report_markdown) then raise empty_response_error
  else
    emit (SetReport report_markdown);;
    update_status "Report content generated." "report".

Definition error_message (e : Exception) : string :=
  "An error occurred during report processing: " +:+ exc_str e.

(** [process_report_task] once [job = jobs[job_id]] is bound, main.py
    lines 172-209. *)
Definition process_report_task (env : Env) (job : Job) : M unit :=
  try_finally
    (try_except (pipeline env job)
       (fun e => update_status (error_message e) "error"))
    (emit SetComplete).

(** The effect of one action on the job the task works on. *)
Definition apply_action (a : Action) (job : Job) : Job :=
  match a with
  | Append u =>
      mkJob (files job) (status_updates job ++ [u]) (is_complete job)
        (report_content job)
  | SetReport text =>
      mkJob (files job) (status_updates job) (is_complete job) (Some text)
  | SetComplete =>
      mkJob (files job) (status_updates job) true (report_content job)
  | Request _ | Sleep _ | Call _ _ _ _ => job
  end.

(** The job after a run of actions. *)
Definition replay (job : Job) (t : list Action) : Job :=
  fold_left (fun j a => apply_action a j) t job.

(** The job after each action of a run, in order. *)
Fixpoint states (job : Job) (t : list Action) : list Job :=
  match t with
  | [] => []
  | a :: t' => apply_action a job :: states (apply_action a job) t'
  end.

Definition trace_of {A} (m : M A) (s : Counters) : list Action := snd (m s).
Definition result_of {A} (m : M A) (s : Counters) : Result A := fst (fst (m s)).

(** [process_report_task(job_id)] on the dictionary: the lookup of line
    168 is outside the [try], so an unknown key raises [KeyError], whose
    [str()] is the [repr()] of the key, and changes nothing. *)
Definition process_report_task_in (env : Env) (jobs : gmap string Job)
    (job_id : string) (s : Counters)
    : Result unit * gmap string Job * list Action :=
  match jobs !! job_id with
  | None => (Raise (mkExc "KeyError" (Py.repr job_id)), jobs, [])
  | Some job =>
      match process_report_task env job s with
      | (r, _, t) => (r, <[job_id := replay job t]> jobs, t)
      end
  end.

(* ===================================================================== *)
(** ** Characters of a message *)
(* ===================================================================== *)

(** The characters from the space to the tilde. *)
Definition printable (c : ascii) : bool :=
  let n := nat_of_ascii c in (32 <=? n) && (n <=? 126).

Fixpoint string_forall (P : ascii -> bool) (s : string) : bool :=
  match s with
  | EmptyString => true
  | String c s' => P c && string_forall P s'
  end.

(** Neither a line feed nor a carriage return. *)
Definition no_line_break (c : ascii) : bool :=
  negb (nat_of_ascii c =? 10) && negb (nat_of_ascii c =? 13).

(* ===================================================================== *)
(** ** The document renderer, report_generator.py *)
(* ===================================================================== *)

(** What [create_docx_report] adds to the document. *)
Inductive Block :=
| Heading (text : string) (level : nat)
| Paragraph (text : string) (style : option string).

(** The body of the loop over the lines, lines 14-24. *)
Definition render_line (line : string) : list Block :=
  let line := Py.strip line in
  if Py.startswith "### " line then [Heading (Py.drop 4 line) 3]
  else if Py.startswith "## " line then [Heading (Py.drop 3 line) 2]
  else if Py.startswith "# " line then [Heading (Py.drop 2 line) 1]
  else if Py.startswith "* " line || Py.startswith "- " line
       then [Paragraph (Py.drop 2 line) (Some "List Bullet")]
  else if 0 <? Py.len line then [Paragraph line None]
  else [].

Definition document_of (report_markdown : string) : list Block :=
  Heading "Consolidated Security Report" 0
  :: flat_map render_line (Py.split (ascii_of_nat 10) report_markdown).

(** What python-docx does with the text of a heading or a paragraph: a
    tab becomes a tab element and a line feed or a carriage return a
    break; every other character goes into the XML of the document, and
    lxml refuses the control characters, with a [ValueError].  On code
    points below 256 these are the ones below 32. *)
Definition xml_char (c : ascii) : bool :=
  let n := nat_of_ascii c in
  (32 <=? n) || (n =? 9) || (n =? 10) || (n =? 13).

Definition block_text (b : Block) : string :=
  match b with
  | Heading text _ => text
  | Paragraph text _ => text
  end.

(** [add_heading] or [add_paragraph] takes the block. *)
Definition accepted (b : Block) : bool := string_forall xml_char (block_text b).

(** Every block of the document of the text is taken. *)
Definition renders (report_markdown : string) : bool :=
  forallb accepted (document_of report_markdown).

Definition xml_error : Exception :=
  ValueError
    "All strings must be XML compatible: Unicode or ASCII, no NULL bytes or control characters".

(* ===================================================================== *)
(** ** The endpoints *)
(* ===================================================================== *)

(** What becomes of a request: an [HTTPException] raised by the
    endpoint, the value it returns, or another exception that leaves it,
    which the framework answers with status 500. *)
Inductive Response (A : Type) : Type :=
| HTTPException (status_code : nat) (detail : string)
| Returns (a : A)
| Unhandled (e : Exception).
Arguments HTTPException {A} status_code detail.
Arguments Returns {A} a.
Arguments Unhandled {A} e.

Record UploadFile := mkUploadFile {
  uf_filename : option string;
  uf_bytes : list Byte.byte
}.

(** The [Response] of the download endpoint. *)
Record Attachment := mkAttachment {
  body : list Byte.byte;
  media_type : string;
  headers : list (string * string)
}.

Definition docx_media_type : string :=
  "application/vnd.openxmlformats-officedocument.wordprocessingml.document".

Definition report_filename (job_id : string) : string :=
  "consolidated_security_report_" +:+ Py.take 8 job_id +:+ ".docx".

Section External.

(** The libraries the endpoints call: PyMuPDF's text extraction, which
    may raise; [bytes.decode("utf-8", errors="ignore")]; and python-docx
    writing out a document whose blocks it has taken. *)
Variable pdf_text : list Byte.byte -> Result string.
Variable decode_utf8_ignore : list Byte.byte -> string.
Variable docx_save : list Block -> list Byte.byte.

(** [get_text_from_file], main.py line 131. *)
Definition get_text_from_file (file : UploadFile) : string :=
  let text_content := "" in
  let file_bytes := uf_bytes file in
  if Py.truthy_opt (uf_filename file)
     && Py.endswith ".pdf" (Py.lower (default "" (uf_filename file)))
  then match pdf_text file_bytes with
       | Ok text => text
       | Raise _ => text_content
       end
  else decode_utf8_ignore file_bytes.

(** [create_docx_report], report_generator.py line 5: the blocks are
    added one by one, which raises at a block python-docx does not take,
    and the document is written out. *)
Definition create_docx_report (report_markdown : string)
    : Result (list Byte.byte) :=
  if renders report_markdown
  then Ok (docx_save (document_of report_markdown))
  else Raise xml_error.

(** [f and f.filename] of line 228. *)
Definition provided (f : option UploadFile) : option UploadFile :=
  match f with
  | Some u => if Py.truthy_opt (uf_filename u) then Some u else None
  | None => None
  end.

(** [upload_files_for_processing], main.py line 227.  [uuid4] is the
    value of [str(uuid.uuid4())]; the third component lists the tasks
    handed to [background_tasks]. *)
Definition upload_files_for_processing (uuid4 : string)
    (jobs : gmap string Job) (file1 file2 file3 file4 : option UploadFile)
    : Response string * gmap string Job * list string :=
  let files := omap provided [file1; file2; file3; file4] in
  match files with
  | [] => (HTTPException 400 "No files were uploaded.", jobs, [])
  | _ :: _ =>
      let file_contents :=
        map (fun f => mkFileInfo (default "" (uf_filename f))
                        (get_text_from_file f)) files in
      let job_id := uuid4 in
      (Returns job_id,
       <[job_id := mkJob file_contents [] false None]> jobs,
       [job_id])
  end.

(** [download_report], main.py line 240. *)
Definition download_report (jobs : gmap string Job) (job_id : string)
    : Response Attachment :=
  match jobs !! job_id with
  | None => HTTPException 404 "Report not found or not yet complete."
  | Some job =>
      if negb (Py.truthy_opt (report_content job))
      then HTTPException 404 "Report not found or not yet complete."
      else
        let report_markdown := default "" (report_content job) in
        match create_docx_report report_markdown with
        | Raise e => Unhandled e
        | Ok docx_bytes =>
            Returns
              (mkAttachment docx_bytes docx_media_type
                 [("Content-Disposition",
                   "attachment; filename=" +:+ report_filename job_id)])
        end
  end.

End External.

(* ===================================================================== *)
(** ** The progress stream *)
(* ===================================================================== *)

Module Json.

Definition hex_digit (n : nat) : string :=
  Py.take 1 (Py.drop n "0123456789abcdef").

(** One character of a string under [json.dumps] with its default
    [ensure_ascii=True]. *)
Definition escape_char (c : ascii) : string :=
  let n := nat_of_ascii c in
  if n =? 34 then "\" +:+ Py.DQ
  else if n =? 92 then "\\"
  else if n =? 10 then "\n"
  else if n =? 13 then "\r"
  else if n =? 9 then "\t"
  else if n =? 12 then "\f"
  else if n =? 8 then "\b"
  else if (32 <=? n) && (n <=? 126) then String c EmptyString
  else "\u00" +:+ hex_digit (n / 16) +:+ hex_digit (n mod 16).

Fixpoint escape (s : string) : string :=
  match s with
  | EmptyString => EmptyString
  | String c s' => escape_char c +:+ escape s'
  end.

Definition quoted (s : string) : string := Py.DQ +:+ escape s +:+ Py.DQ.

(** [json.dumps(update)] for an entry of [status_updates]. *)
Definition dumps_update (u : Update) : string :=
  "{" +:+ quoted "type" +:+ ": " +:+ quoted (utype u) +:+ ", "
  +:+ quoted "content" +:+ ": " +:+ quoted (ucontent u) +:+ "}".

(** [json.dumps({'type': 'done'})] *)
Definition dumps_done : string :=
  "{" +:+ quoted "type" +:+ ": " +:+ quoted "done" +:+ "}".

End Json.

(** One message of the event stream. *)
Definition sse (payload : string) : string :=
  "data: " +:+ payload +:+ Py.LF +:+ Py.LF.

(** What one turn of the [while True] loop of [event_generator] sees.
    The generator is suspended at [request.is_disconnected()], at every
    [yield] and at [asyncio.sleep(1)], and the task of the job runs on the
    same event loop: [at_read] is the job when lines 264-266 read the
    length and take the slice, [after_yields] the job when control is
    back after the last [yield] and lines 268-270 read the length and the
    flag.  When nothing is yielded there is no suspension between the two
    and only [at_read] is looked at. *)
Record Poll := mkPoll {
  disconnected : bool;
  at_read : Job;
  after_yields : Job
}.

Inductive StreamEnd :=
| Finished                            (* [break] after the done message *)
| Disconnected                        (* [break] of line 262 *)
| Polling (last_sent_index : nat).    (* still in the loop *)

(** [event_generator], main.py lines 258-274, over the turns of its loop. *)
Fixpoint event_generator (schedule : list Poll) (last_sent_index : nat)
    : list string * StreamEnd :=
  match schedule with
  | [] => ([], Polling last_sent_index)
  | poll :: rest =>
      if disconnected poll then ([], Disconnected)
      else
        let '(sent, last_sent_index, job) :=
          if last_sent_index <? length (status_updates (at_read poll))
          then (map (fun update => sse (Json.dumps_update update))
                  (drop last_sent_index (status_updates (at_read poll))),
                length (status_updates (after_yields poll)),
                after_yields poll)
          else ([], last_sent_index, at_read poll) in
        if is_complete job
        then (sent ++ [sse Json.dumps_done], Finished)
        else
          let '(more, ending) := event_generator rest last_sent_index in
          (sent ++ more, ending)
  end.

(** [stream_status], main.py line 254: the check of the identifier, then
    the generator from index 0. *)
Definition stream_status (jobs : gmap string Job) (job_id : string)
    (schedule : list Poll) : Response (list string * StreamEnd) :=
  match jobs !! job_id with
  | None => HTTPException 404 "Job ID not found."
  | Some _ => Returns (event_generator schedule 0)
  end.

(* ===================================================================== *)
(** ** Reading a run *)
(* ===================================================================== *)

Definition is_request (a : Action) : bool :=
  match a with Request _ => true | _ => false end.

Definition is_set_complete (a : Action) : bool :=
  match a with SetComplete => true | _ => false end.

(** The number of completion requests among some actions. *)
Definition attempts_in (t : list Action) : nat :=
  length (List.filter is_request t).

(** The waits among some actions, in order. *)
Definition sleeps_in (t : list Action) : list Q :=
  omap (fun a => match a with Sleep q => Some q | _ => None end) t.

(** The calls of the retry wrapper among some actions, in order, with
    their [max_attempts]. *)
Definition calls_in (t : list Action) : list (string * Z) :=
  omap (fun a => match a with Call p n _ _ => Some (p, n) | _ => None end) t.

(** The least wait after the attempt numbered [attempt], and the wait
    with the value drawn. *)
Definition min_wait (attempt : nat) : Q := inject_Z (2 ^ Z.of_nat attempt).

Definition wait_time (env : Env) (attempt draw : nat) : Q :=
  (min_wait attempt + uniform env draw)%Q.

(** [k] failed attempts that are each followed by a wait, from the
    attempt numbered [attempt] and the draw numbered [draw]. *)
Fixpoint failed_attempts (env : Env) (prompt : string)
    (attempt draw k : nat) : list Action :=
  match k with
  | O => []
  | S k' =>
      Request prompt :: Sleep (wait_time env attempt draw)
      :: failed_attempts env prompt (S attempt) (S draw) k'
  end.

Definition is_report (u : Update) : bool := String.eqb (utype u) "report".

Definition report_events (job : Job) : list Update :=
  List.filter is_report (status_updates job).

Definition status (message : string) : Action :=
  Append (mkUpdate "status" message).

(** A file whose summary came back: the file, what happened inside the
    wrapper, and the summary. *)
Definition Summarized : Type := FileInfo * list Action * string.

Definition file_of (d : Summarized) : FileInfo := fst (fst d).

Definition tag_of (d : Summarized) : string :=
  tagged_summary (filename (file_of d)) (snd d).

Definition summarizing (f : FileInfo) : Action :=
  status ("Summarizing file: " +:+ filename f +:+ "...").

Definition prompt_of (f : FileInfo) : string :=
  summary_prompt (filename f) (content f).

(** The actions for one file whose summary came back. *)
Definition file_block (d : Summarized) : list Action :=
  [summarizing (file_of d);
   Call (prompt_of (file_of d)) 3 (snd (fst d)) (Ok (snd d));
   Sleep 5].

Definition starting : Action :=
  status "Starting consolidation process. Summarizing individual files...".

Definition generating : Action :=
  status "All summaries created. Generating final consolidated report...".

Definition report_event : Update :=
  mkUpdate "report" "Report content generated.".

Definition error_event (e : Exception) : Action :=
  Append (mkUpdate "error" (error_message e)).

(** What a run records on the job once its last call of the wrapper has
    returned or raised. *)
Definition recording (outcome : Result string) : list Action :=
  match outcome with
  | Ok report_markdown =>
      if Py.truthy report_markdown
      then [SetReport report_markdown; Append report_event]
      else [error_event empty_response_error]
  | Raise e => [error_event e]
  end.

(** How a run ends. *)
Definition closing (outcome : Result string) : list Action :=
  recording outcome ++ [SetComplete].

(** What the [try] of the task comes to once the final call is over. *)
Definition pipeline_outcome (outcome : Result string) : Result unit :=
  match outcome with
  | Ok report_markdown =>
      if Py.truthy report_markdown then Ok tt else Raise empty_response_error
  | Raise e => Raise e
  end.

(** Actions that leave the flag, the report text and the report events of
    the job as they are. *)
Definition quiet (a : Action) : bool :=
  match a with
  | Append u => String.eqb (utype u) "status" || String.eqb (utype u) "error"
  | Request _ | Sleep _ | Call _ _ _ _ => true
  | SetReport _ | SetComplete => false
  end.


(** The outcomes of the calls with [max_attempts = 5] among some
    actions. *)
Definition final_outcomes (t : list Action) : list (Result string) :=
  omap (fun a => match a with
                 | Call _ n _ r => if (n =? 5)%Z then Some r else None
                 | _ => None
                 end) t.

(** Same flag, same report text, same report events. *)
Definition same_report (j j' : Job) : Prop :=
  is_complete j' = is_complete j
  /\ report_content j' = report_content j
  /\ report_events j' = report_events j.



(** A turn of the stream's loop with the client connected and the job
    unchanged while the stream yields. *)
Definition steady (p : Poll) : Prop :=
  disconnected p = false /\ after_yields p = at_read p.

(** The events only grow from one turn to the next, from [sent] on. *)
Fixpoint growing (sent : list Update) (schedule : list Poll) : Prop :=
  match schedule with
  | [] => True
  | p :: rest =>
      sent `prefix_of` status_updates (at_read p)
      /\ growing (status_updates (at_read p)) rest
  end.

Definition sse_update (u : Update) : string := sse (Json.dumps_update u).

(* ===================================================================== *)
(** ** Sample runs *)
(* ===================================================================== *)

Module Sample.

(** The job of an upload of two text files. *)
Definition job_ab : Job :=
  mkJob [mkFileInfo "a.txt" "Critical SQL injection in login";
         mkFileInfo "b.txt" "Low severity: outdated library"]
    [] false None.

Definition start : Counters := mkCounters 0 0.

Definition half : nat -> Q := fun _ => (1 # 2)%Q.

Definition busy : Exception := mkExc "RateLimitError" "429 Too Many Requests".

(** A client that always answers. *)
Definition env_ok : Env :=
  mkEnv (fun _ _ => Content (Some "# Findings")) half.

(** A client that fails twice, then answers. *)
Definition env_flaky : Env :=
  mkEnv (fun n _ => if n <? 2 then Fails busy
                    else Content (Some "# Findings")) half.

(** A client that never answers. *)
Definition env_down : Env := mkEnv (fun _ _ => Fails busy) half.

(** A client whose answers have no content. *)
Definition env_filtered : Env := mkEnv (fun _ _ => Content None) half.

Definition no_save : list Block -> list Byte.byte := fun _ => [].

(** The run of the task on [job_ab] with the client that answers. *)
Definition run_ok : list Action :=
  trace_of (process_report_task env_ok job_ab) start.

(** The job while the final call is pending: the five status events
    are on it. *)
Definition awaiting_final : Job := replay job_ab (take 9 run_ok).

(** The job when the run is over. *)
Definition finished : Job := replay job_ab run_ok.

(** One turn of the stream's loop that takes its slice while the final
    call is pending and is back from its last [yield] after the task
    has appended the report event and set the flag. *)
Definition overtaken : Poll := mkPoll false awaiting_final finished.

End Sample.

(* ===================================================================== *)
(** ** Measures of a run *)
(* ===================================================================== *)

(** The counters a computation leaves. *)
Definition counters_after {A} (m : M A) (s : Counters) : Counters :=
  snd (fst (m s)).

(** The sum of some waits. *)
Definition total_wait (waits : list Q) : Q := fold_right Qplus 0%Q waits.

(** The completion requests made inside the calls of the wrapper among
    some actions. *)
Definition requests_in_calls (t : list Action) : nat :=
  sum_list_with (fun a => match a with
                           | Call _ _ inner _ => attempts_in inner
                           | _ => 0
                           end) t.

(** The events some actions append, in order. *)
Definition appends_in (t : list Action) : list Update :=
  omap (fun a => match a with Append u => Some u | _ => None end) t.

Definition is_status (u : Update) : bool := String.eqb (utype u) "status".

(** A later look at a job: the events have only grown, the files are the
    same, and a flag that was set is still set. *)
Definition later (j1 j2 : Job) : Prop :=
  status_updates j1 `prefix_of` status_updates j2
  /\ files j2 = files j1
  /\ (is_complete j1 = true -> is_complete j2 = true).

(** A turn of the stream's loop that sees the job [j], with the client
    connected and the job the same after the yields. *)
Definition steady_poll (j : Job) : Poll := mkPoll false j j.

(** The last character of a string is white space. *)
Fixpoint ends_with_space (s : string) : bool :=
  match s with
  | EmptyString => false
  | String c EmptyString => Py.isspace c
  | String _ s' => ends_with_space s'
  end.

(** A line with something else in it than white space. *)
Definition nonblank (line : string) : bool := Py.truthy (Py.strip line).

(** A block as the renderer makes them from a line: some text, a heading
    of level 1 to 3 or a paragraph in the default or the bullet style. *)
Definition well_formed_block (b : Block) : Prop :=
  match b with
  | Heading text level => text <> "" /\ 1 <= level <= 3
  | Paragraph text style =>
      text <> "" /\ (style = None \/ style = Some "List Bullet")
  end.

(** [get_config], main.py line 217: the value under the key
    [base_prompt_tokens] of the JSON answer. *)
Definition get_config : nat := BASE_PROMPT_TOKENS.

(** [count_tokens_endpoint], main.py line 221: the value under the key
    [token_count] of the JSON answer. *)
Definition count_tokens_endpoint
    (pdf_text : list Byte.byte -> Result string)
    (decode_utf8_ignore : list Byte.byte -> string)
    (file : UploadFile) : nat :=
  let text := get_text_from_file pdf_text decode_utf8_ignore file in
  count_tokens text.

(* ===================================================================== *)
(** ** Configuration at start-up *)
(* ===================================================================== *)

(** [str(os.getenv(name))]: a variable that is not set reads as the text
    of [None]. *)
Definition getenv_str (environ : gmap string string) (name : string) : string :=
  default "None" (environ !! name).

Record Settings := mkSettings {
  azure_endpoint : string;
  api_key : string;
  deployment_name : string;
  api_version : string
}.

(** main.py lines 108-112. *)
Definition read_settings (environ : gmap string string) : Settings :=
  mkSettings (getenv_str environ "AZURE_OPENAI_ENDPOINT")
    (getenv_str environ "AZURE_OPENAI_API_KEY")
    (getenv_str environ "AZURE_OPENAI_DEPLOYMENT_NAME")
    (default "2023-12-01-preview" (environ !! "API_VERSION")).

(** [all([azure_endpoint, api_key, deployment_name])] *)
Definition settings_complete (c : Settings) : bool :=
  forallb Py.truthy [azure_endpoint c; api_key c; deployment_name c].

Inductive Startup :=
| Exits                           (* [exit()] of line 121 *)
| Serves (settings : Settings).

(** The client set-up of main.py lines 107-121; [AzureOpenAI] is the
    constructor of the client, which may raise. *)
Definition startup (environ : gmap string string)
    (AzureOpenAI : Settings -> Result unit) : Startup :=
  let c := read_settings environ in
  if negb (settings_complete c) then Exits
  else match AzureOpenAI c with
       | Ok _ => Serves c
       | Raise _ => Exits
       end.

(** test_connection.py lines 12-15: the version is fixed there. *)
Definition read_test_settings (environ : gmap string string) : Settings :=
  mkSettings (getenv_str environ "AZURE_OPENAI_ENDPOINT")
    (getenv_str environ "AZURE_OPENAI_API_KEY")
    (getenv_str environ "AZURE_OPENAI_DEPLOYMENT_NAME")
    "2023-12-01-preview".

(** What test_connection.py prints, one entry for each [print];
    [connect] is the client set-up and the request of lines 24-35 with
    the content of the answer, which may be [None]. *)
Definition test_connection (environ : gmap string string)
    (connect : Settings -> Result (option string)) : list string :=
  "Attempting to connect to Azure OpenAI..."
  :: (let c := read_test_settings environ in
      if negb (settings_complete c)
      then [Py.LF +:+ "FAILURE! An error occurred: "
            +:+ "One or more environment variables are missing."]
      else
        ["Endpoint: " +:+ azure_endpoint c;
         "Deployment: " +:+ deployment_name c]
        ++ match connect c with
           | Ok content =>
               [Py.LF +:+ "SUCCESS! Connection established and received a response.";
                "Response: " +:+ default "None" content]
           | Raise e => [Py.LF +:+ "FAILURE! An error occurred: " +:+ exc_str e]
           end).

(** The calls of the retry wrapper among some actions, in order: the
    prompt, [max_attempts] and how the call ended. *)
Definition call_outcomes (t : list Action)
    : list (string * Z * Result string) :=
  omap (fun a => match a with
                 | Call p n _ r => Some (p, n, r)
                 | _ => None
                 end) t.

(** The files of some upload fields that carry a name, in the order of
    the fields. *)
Definition named_files (fields : list (option UploadFile)) : list UploadFile :=
  flat_map (fun field =>
              match field with
              | Some (mkUploadFile (Some (String c name)) bytes) =>
                  [mkUploadFile (Some (String c name)) bytes]
              | _ => []
              end) fields.

(* ===================================================================== *)
(** ** Runs at the edges *)
(* ===================================================================== *)

Module Edge.

(** A client that fails 1025 times, then answers. *)
Definition env_late : Env :=
  mkEnv (fun n _ => if n <? 1025 then Fails Sample.busy
                    else Content (Some "# Findings")) Sample.half.




End Edge.

(* ===================================================================== *)
(** ** Python strings and the renderer at work *)
(* ===================================================================== *)

Example format_comma_groups :
  Py.format_comma 0 = "0" /\ Py.format_comma 850 = "850"
  /\ Py.format_comma 1000 = "1,000"
  /\ Py.format_comma (1234 * 1000 + 567) = "1,234,567".
Proof. repeat split; vm_compute; reflexivity. Qed.

Example strip_and_split :
  Py.strip "  a b  " = "a b"
  /\ Py.split "," "a,b,,c," = ["a"; "b"; ""; "c"; ""]
  /\ Py.split "," "" = [""].
Proof. repeat split. Qed.

Example pdf_suffix :
  Py.endswith ".pdf" (Py.lower "Scan.PDF") = true
  /\ Py.endswith ".pdf" (Py.lower "pdf") = false.
Proof. repeat split. Qed.

Example dumps_update_escapes :
  Json.dumps_update (mkUpdate "status" ("a" +:+ Py.LF +:+ "b"))
  = "{" +:+ Py.DQ +:+ "type" +:+ Py.DQ +:+ ": " +:+ Py.DQ +:+ "status"
    +:+ Py.DQ +:+ ", " +:+ Py.DQ +:+ "content" +:+ Py.DQ +:+ ": " +:+ Py.DQ
    +:+ "a\nb" +:+ Py.DQ +:+ "}".
Proof. reflexivity. Qed.

Example document_of_markdown :
  document_of ("# Title" +:+ Py.LF +:+ "  text here " +:+ Py.LF +:+ Py.LF
               +:+ "- item" +:+ Py.LF +:+ "### sub" +:+ Py.LF +:+ "###")
  = [Heading "Consolidated Security Report" 0; Heading "Title" 1;
     Paragraph "text here" None; Paragraph "item" (Some "List Bullet");
     Heading "sub" 3; Paragraph "###" None].
Proof. reflexivity. Qed.

Example report_filename_of_uuid :
  report_filename "123e4567-e89b-12d3-a456-426614174000"
  = "consolidated_security_report_123e4567.docx"
  /\ report_filename "abc" = "consolidated_security_report_abc.docx".
Proof. repeat split. Qed.

(** The run of the task on the two-file job when the client answers. *)
Example run_ok_actions :
  map (fun a => match a with
                | Append u => utype u
                | Call _ n _ _ => if (n =? 3)%Z then "call 3" else "call 5"
                | Sleep _ => "sleep"
                | SetReport _ => "set report"
                | SetComplete => "set complete"
                | Request _ => "request"
                end) Sample.run_ok
  = ["status"; "status"; "call 3"; "sleep"; "status"; "call 3"; "sleep";
     "status"; "status"; "call 5"; "set report"; "report"; "set complete"].
Proof. vm_compute. reflexivity. Qed.

(* ===================================================================== *)
(** ** The retry wrapper: lemmas *)
(* ===================================================================== *)

Ltac unfold_M :=
  unfold mbind, mret, M_bind, M_ret, bind, ret, raise, sleep, update_status,
    emit, request, random_uniform in *.

Lemma content_or_empty (c : option string) :
  (if Py.truthy_opt c then default "" c else "") = default "" c.
Proof. destruct c as [[|a s]|]; reflexivity. Qed.

Lemma counters_eta (s : Counters) :
  mkCounters (requests s + 0) (draws s + 0) = s.
Proof. destruct s; simpl; f_equal; lia. Qed.

(** [k] failures that are not the last attempt, at attempts below 1024:
    the loop waits after each and goes on with the attempts that are
    left. *)
Lemma retry_loop_failures (env : Env) (prompt : string) (N : Z) :
  forall (k a n : nat) (errs : nat -> Exception) (s : Counters),
    Z.of_nat (a + n) = N ->
    k < n ->
    a + k <= 1024 ->
    (forall i, i < k -> ai env (requests s + i) prompt = Fails (errs i)) ->
    retry_loop env prompt N (seq a n) s =
    match retry_loop env prompt N (seq (a + k) (n - k))
            (mkCounters (requests s + k) (draws s + k)) with
    | (r, s', t) => (r, s', failed_attempts env prompt a (draws s) k ++ t)
    end.
Proof.
  induction k as [|k IH]; intros a n errs s HN Hk Hsmall Hfail.
  - rewrite Nat.add_0_r, Nat.sub_0_r, counters_eta.
    destruct (retry_loop env prompt N (seq a n) s) as [[r s'] t]. reflexivity.
  - destruct n as [|n]; [lia|].
    change (seq a (S n)) with (a :: seq (S a) n).
    cbn [retry_loop]. unfold_M. cbn [requests draws].
    specialize (Hfail 0 ltac:(lia)) as H0. rewrite Nat.add_0_r in H0.
    rewrite H0.
    replace (Z.of_nat a =? N - 1)%Z with false by (symmetry; apply Z.eqb_neq; lia).
    replace (1024 <=? a) with false by (symmetry; apply Nat.leb_gt; lia).
    cbn [app].
    rewrite (IH (S a) n (fun i => errs (S i))); cbn [requests draws]; try lia.
    + replace (S a + k) with (a + S k) by lia.
      replace (S n - S k) with (n - k) by lia.
      replace (S (requests s) + k) with (requests s + S k) by lia.
      replace (S (draws s) + k) with (draws s + S k) by lia.
      destruct (retry_loop env prompt N (seq (a + S k) (n - k)) _)
        as [[r s'] t].
      reflexivity.
    + intros i Hi. replace (S (requests s) + i) with (requests s + S i) by lia.
      apply Hfail. lia.
Qed.

Lemma attempts_in_app (t1 t2 : list Action) :
  attempts_in (t1 ++ t2) = attempts_in t1 + attempts_in t2.
Proof. unfold attempts_in. rewrite List.filter_app, length_app. reflexivity. Qed.

Lemma attempts_in_failed env prompt k :
  forall a d, attempts_in (failed_attempts env prompt a d k) = k.
Proof.
  induction k as [|k IH]; intros a d; [reflexivity|].
  cbn [failed_attempts]. unfold attempts_in in *. cbn. rewrite IH. reflexivity.
Qed.

Lemma sleeps_in_app (t1 t2 : list Action) :
  sleeps_in (t1 ++ t2) = sleeps_in t1 ++ sleeps_in t2.
Proof. unfold sleeps_in. apply omap_app. Qed.

Lemma sleeps_in_failed env prompt k :
  forall a d,
    sleeps_in (failed_attempts env prompt a d k)
    = map (fun i => wait_time env (a + i) (d + i)) (seq 0 k).
Proof.
  induction k as [|k IH]; intros a d; [reflexivity|].
  cbn [failed_attempts]. unfold sleeps_in in *. cbn [omap list_omap].
  rewrite IH. cbn [seq map]. rewrite !Nat.add_0_r. f_equal.
  rewrite <- seq_shift, map_map. apply map_ext. intros i.
  f_equal; lia.
Qed.

Lemma min_wait_increasing (attempt : nat) :
  (min_wait attempt < min_wait (S attempt))%Q.
Proof.
  unfold min_wait. rewrite <- Zlt_Qlt.
  rewrite Nat2Z.inj_succ, Z.pow_succ_r by lia.
  assert (0 < 2 ^ Z.of_nat attempt)%Z by (apply Z.pow_pos_nonneg; lia). lia.
Qed.

Lemma wait_time_bounds (env : Env) (attempt draw : nat) :
  (0 <= uniform env draw)%Q -> (uniform env draw <= 1)%Q ->
  (min_wait attempt <= wait_time env attempt draw)%Q
  /\ (wait_time env attempt draw <= min_wait attempt + 1)%Q.
Proof.
  intros Hlo Hhi. unfold wait_time. split.
  - rewrite <- (Qplus_0_r (min_wait attempt)) at 1.
    apply Qplus_le_compat; [apply Qle_refl | exact Hlo].
  - apply Qplus_le_compat; [apply Qle_refl | exact Hhi].
Qed.

(* ===================================================================== *)
(** ** The background task: the shape of a run *)
(* ===================================================================== *)

Lemma run_openai_with_retry_call env p n s :
  exists r s' inner,
    run_openai_with_retry env p n s = (r, s', [Call p n inner r]).
Proof.
  unfold run_openai_with_retry.
  destruct (retry_loop env p n (seq 0 (Z.to_nat n)) s) as [[r s'] inner].
  eauto.
Qed.

(** The loop over the files either summarizes them all, or stops at the
    first file whose call raises. *)
Lemma summarize_files_trace env :
  forall (fs : list FileInfo) (acc : list string) (s : Counters),
  exists done : list Summarized,
    (exists s',
        summarize_files env fs acc s
        = (Ok (acc ++ map tag_of done), s', flat_map file_block done)
        /\ map file_of done = fs)
    \/ (exists f rest inner e s',
        summarize_files env fs acc s
        = (Raise e, s',
           flat_map file_block done
           ++ [summarizing f; Call (prompt_of f) 3 inner (Raise e)])
        /\ fs = map file_of done ++ f :: rest).
Proof.
  induction fs as [|f fs IH]; intros acc s.
  - exists []. left. exists s. cbn. rewrite app_nil_r. auto.
  - cbn [summarize_files]. unfold_M.
    destruct (run_openai_with_retry_call env
                (summary_prompt (filename f) (content f)) 3 s)
      as (r & s1 & inner & Hcall).
    rewrite Hcall. destruct r as [summary|e].
    + destruct (IH (acc ++ [tagged_summary (filename f) summary]) s1)
        as [done [(s' & Hrun & Hfiles) | (f' & rest & inner' & e & s' & Hrun & Hfiles)]].
      * exists ((f, inner, summary) :: done). left. exists s'.
        rewrite Hrun. cbn. rewrite <- app_assoc. split; [reflexivity|].
        f_equal. exact Hfiles.
      * exists ((f, inner, summary) :: done). right.
        exists f', rest, inner', e, s'. rewrite Hrun. cbn.
        split; [reflexivity|]. f_equal. exact Hfiles.
    + exists []. right. exists f, fs, inner, e, s1. cbn. auto.
Qed.

(** A whole run: every file is summarized and the final call is made, or
    the run stops at the first file whose call raises, records the error
    and marks the job complete. *)
Lemma process_report_task_trace env job s :
  exists done : list Summarized,
    (exists inner r,
        map file_of done = files job
        /\ trace_of (process_report_task env job) s
           = starting :: flat_map file_block done
             ++ [generating;
                 status (token_status (final_prompt_of (map tag_of done)));
                 Call (final_prompt_of (map tag_of done)) 5 inner r]
             ++ closing r
        /\ result_of (pipeline env job) s = pipeline_outcome r)
    \/ (exists f rest inner e,
        files job = map file_of done ++ f :: rest
        /\ trace_of (process_report_task env job) s
           = starting :: flat_map file_block done
             ++ [summarizing f; Call (prompt_of f) 3 inner (Raise e);
                 error_event e; SetComplete]
        /\ result_of (pipeline env job) s = Raise e).
Proof.
  unfold trace_of, result_of, process_report_task, try_finally, try_except,
    pipeline.
  unfold_M.
  destruct (summarize_files_trace env (files job) [] s)
    as [done [(s1 & Hrun & Hfiles) | (f & rest & inner & e & s1 & Hrun & Hfiles)]].
  - exists done. left. rewrite Hrun. cbn [app].
    destruct (run_openai_with_retry_call env
                (final_prompt_of (map tag_of done)) 5 s1)
      as (r & s2 & inner & Hcall).
    rewrite Hcall. exists inner, r. split; [exact Hfiles|].
    destruct r as [md|e]; cbn.
    + destruct (Py.truthy md); cbn; rewrite <- ?app_assoc; cbn; auto.
    + rewrite <- ?app_assoc; cbn; auto.
  - exists done. right. exists f, rest, inner, e. rewrite Hrun.
    split; [exact Hfiles|]. cbn. rewrite <- ?app_assoc. cbn. auto.
Qed.

(** No exception leaves the task. *)
Lemma process_report_task_returns env job s :
  result_of (process_report_task env job) s = Ok tt.
Proof.
  unfold result_of, process_report_task, try_finally, try_except.
  unfold_M.
  destruct (pipeline env job s) as [[[[]|e] s1] t1]; reflexivity.
Qed.

Lemma calls_in_app (t1 t2 : list Action) :
  calls_in (t1 ++ t2) = calls_in t1 ++ calls_in t2.
Proof. unfold calls_in. apply omap_app. Qed.

Lemma calls_in_blocks (done : list Summarized) :
  calls_in (flat_map file_block done)
  = map (fun f => (prompt_of f, 3%Z)) (map file_of done).
Proof.
  induction done as [|d done IH]; [reflexivity|].
  cbn [flat_map map]. rewrite calls_in_app, IH. reflexivity.
Qed.

Lemma calls_in_closing (r : Result string) : calls_in (closing r) = [].
Proof. destruct r as [md|e]; cbn; [destruct (Py.truthy md)|]; reflexivity. Qed.

Lemma call_outcomes_app (t1 t2 : list Action) :
  call_outcomes (t1 ++ t2) = call_outcomes t1 ++ call_outcomes t2.
Proof. unfold call_outcomes. apply omap_app. Qed.

Lemma call_outcomes_blocks (done : list Summarized) :
  call_outcomes (flat_map file_block done)
  = map (fun d => (prompt_of (file_of d), 3%Z, Ok (snd d))) done.
Proof.
  induction done as [|d done IH]; [reflexivity|].
  cbn [flat_map map]. rewrite call_outcomes_app, IH. reflexivity.
Qed.

Lemma call_outcomes_closing (r : Result string) :
  call_outcomes (closing r) = [].
Proof. destruct r as [md|e]; cbn; [destruct (Py.truthy md)|]; reflexivity. Qed.

(* ===================================================================== *)
(** ** The retry wrapper: results *)
(* ===================================================================== *)

(** C4, as the code has it.  With [max_attempts = N >= 1], when the first
    [k < N] attempts fail, with [k <= 1024], and the next one succeeds,
    the wrapper returns the content of that answer ([None] counts as the
    empty text), makes [k + 1] requests, and after the failed attempt
    numbered [attempt] (from 0) waits [2 ^ attempt] plus the value drawn
    in [0, 1]; the least wait [2 ^ attempt] grows strictly with
    [attempt]. *)
Theorem retry_returns_after_failures (env : Env) (prompt : string) (N : Z)
    (k : nat) (errs : nat -> Exception) (c : option string) (s : Counters) :
  (1 <= N)%Z ->
  (Z.of_nat k < N)%Z ->
  k <= 1024 ->
  (forall i, i < k -> ai env (requests s + i) prompt = Fails (errs i)) ->
  ai env (requests s + k) prompt = Content c ->
  (forall n, (0 <= uniform env n)%Q /\ (uniform env n <= 1)%Q) ->
  let inner := failed_attempts env prompt 0 (draws s) k ++ [Request prompt] in
  run_openai_with_retry env prompt N s
  = (Ok (default "" c),
     mkCounters (requests s + k + 1) (draws s + k),
     [Call prompt N inner (Ok (default "" c))])
  /\ attempts_in inner = k + 1
  /\ sleeps_in inner
     = map (fun attempt => wait_time env attempt (draws s + attempt)) (seq 0 k)
  /\ (forall attempt, attempt < k ->
        (min_wait attempt <= wait_time env attempt (draws s + attempt))%Q
        /\ (wait_time env attempt (draws s + attempt) <= min_wait attempt + 1)%Q)
  /\ (forall attempt, (min_wait attempt < min_wait (S attempt))%Q).
Proof.
  intros HN Hk Hsmall Hfail Hsucc Hunif inner. repeat split.
  - unfold run_openai_with_retry.
    rewrite (retry_loop_failures env prompt N k 0 (Z.to_nat N) errs s)
      by (try assumption; lia).
    destruct (Z.to_nat N - k) as [|m] eqn:Hm; [lia|].
    cbn [seq retry_loop]. unfold_M. cbn [requests draws].
    rewrite Hsucc, content_or_empty. cbn [app].
    replace (S (requests s + k)) with (requests s + k + 1) by lia.
    reflexivity.
  - unfold inner. rewrite attempts_in_app, attempts_in_failed. reflexivity.
  - unfold inner. rewrite sleeps_in_app, sleeps_in_failed, app_nil_r.
    reflexivity.
  - apply wait_time_bounds; apply Hunif.
  - apply wait_time_bounds; apply Hunif.
  - apply min_wait_increasing.
Qed.

(** C4 as the spec words it fails for [max_attempts = 1026] when 1025
    attempts fail and the next would succeed: after the failed attempt
    numbered 1024 the wait cannot be computed, and the wrapper raises
    [OverflowError] after 1025 requests instead of returning the
    answer. *)
Lemma retry_overflows_before_the_answer :
  (forall i, i < 1025 -> ai Edge.env_late (0 + i) "p" = Fails Sample.busy)
  /\ ai Edge.env_late (0 + 1025) "p" = Content (Some "# Findings")
  /\ result_of (run_openai_with_retry Edge.env_late "p" 1026) Sample.start
     = Raise (mkExc "OverflowError" "int too large to convert to float")
  /\ requests (counters_after (run_openai_with_retry Edge.env_late "p" 1026)
                 Sample.start)
     = 1025
  /\ result_of (run_openai_with_retry Edge.env_late "p" 1026) Sample.start
     <> Ok "# Findings".
Proof.
  assert (Hres : result_of (run_openai_with_retry Edge.env_late "p" 1026)
                   Sample.start
                 = Raise (mkExc "OverflowError"
                            "int too large to convert to float"))
    by (vm_compute; reflexivity).
  split; [|split; [|split; [|split]]].
  - intros i Hi. cbn. destruct (Nat.leb_spec i 1024); [reflexivity | lia].
  - reflexivity.
  - exact Hres.
  - vm_compute. reflexivity.
  - rewrite Hres. discriminate.
Qed.

(** C5, as the code has it.  With [1 <= max_attempts = N <= 1025], when
    every attempt fails the wrapper makes [N] requests, waits after each
    but the last, and raises the exception of the last attempt; nothing
    follows the last request.  In a run of the task the calls of the
    wrapper are, in order: for each file one call with
    [max_attempts = 3] on the prompt made of the file name and its text,
    and, once each of these has returned its summary, one call with
    [max_attempts = 5] on the final prompt; a call for a file that
    raises is the last call of the run. *)
Theorem retry_gives_up_after_max_attempts (env : Env) (prompt : string)
    (N : Z) (errs : nat -> Exception) (s : Counters) :
  (1 <= N)%Z ->
  (N <= 1025)%Z ->
  (forall i, i < Z.to_nat N ->
             ai env (requests s + i) prompt = Fails (errs i)) ->
  let inner :=
    failed_attempts env prompt 0 (draws s) (Z.to_nat N - 1)
    ++ [Request prompt] in
  let e := errs (Z.to_nat N - 1) in
  run_openai_with_retry env prompt N s
  = (Raise e,
     mkCounters (requests s + Z.to_nat N) (draws s + (Z.to_nat N - 1)),
     [Call prompt N inner (Raise e)])
  /\ attempts_in inner = Z.to_nat N
  /\ last inner = Some (Request prompt)
  /\ (forall (job : Job) (s0 : Counters),
        let calls :=
          call_outcomes (trace_of (process_report_task env job) s0) in
        let prompt_for (f : FileInfo) :=
          "Summarize all critical vulnerabilities from the file '"
          +:+ filename f +:+ "'. TEXT: " +:+ content f in
        exists done : list (FileInfo * string),
          (map fst done = files job
           /\ exists r,
                calls
                = map (fun d => (prompt_for (fst d), 3%Z, Ok (snd d))) done
                  ++ [(PROMPT_TEMPLATE_head
                       +:+ Py.join (Py.LF +:+ Py.LF)
                             (map (fun d => "--- Summary from "
                                            +:+ filename (fst d) +:+ " ---"
                                            +:+ Py.LF +:+ snd d) done)
                       +:+ PROMPT_TEMPLATE_tail,
                       5%Z, r)])
          \/ (exists f rest e',
                files job = map fst done ++ f :: rest
                /\ calls
                   = map (fun d => (prompt_for (fst d), 3%Z, Ok (snd d))) done
                     ++ [(prompt_for f, 3%Z, Raise e')])).
Proof.
  intros HN Hsmall Hfail inner e. split; [|split; [|split]].
  - unfold run_openai_with_retry.
    rewrite (retry_loop_failures env prompt N (Z.to_nat N - 1) 0
               (Z.to_nat N) errs s) by (try lia; intros; apply Hfail; lia).
    replace (Z.to_nat N - (Z.to_nat N - 1)) with 1 by lia.
    cbn [seq retry_loop]. unfold_M. cbn [requests draws].
    rewrite (Hfail (Z.to_nat N - 1)) by lia.
    replace (Z.of_nat (0 + (Z.to_nat N - 1)) =? N - 1)%Z with true
      by (symmetry; apply Z.eqb_eq; lia).
    replace (S (requests s + (Z.to_nat N - 1))) with (requests s + Z.to_nat N)
      by lia.
    reflexivity.
  - unfold inner. rewrite attempts_in_app, attempts_in_failed.
    cbn. lia.
  - unfold inner. apply last_snoc.
  - intros job s0 calls prompt_for. subst calls.
    destruct (process_report_task_trace env job s0)
      as [done [(inner' & r & Hfiles & Ht & _) | (f & rest & inner' & e' & Hfiles & Ht & _)]].
    + exists (map (fun d : Summarized => (file_of d, snd d)) done). left.
      rewrite map_map. split; [exact Hfiles|]. exists r. rewrite Ht.
      change (starting :: ?t) with ([starting] ++ t).
      rewrite !call_outcomes_app, call_outcomes_blocks, call_outcomes_closing.
      cbn. rewrite ?map_map, ?app_nil_r. reflexivity.
    + exists (map (fun d : Summarized => (file_of d, snd d)) done). right.
      exists f, rest, e'. rewrite map_map. split; [exact Hfiles|]. rewrite Ht.
      change (starting :: ?t) with ([starting] ++ t).
      rewrite !call_outcomes_app, call_outcomes_blocks.
      cbn. rewrite ?map_map. reflexivity.
Qed.

(** C5 as the spec words it fails for [max_attempts = 1026] with a client
    that always fails: the wrapper stops after 1025 requests, not 1026,
    and what it raises is [OverflowError], not the failure of the
    client. *)
Lemma retry_overflows_before_giving_up :
  (forall i, ai Sample.env_down i "p" = Fails Sample.busy)
  /\ result_of (run_openai_with_retry Sample.env_down "p" 1026) Sample.start
     = Raise (mkExc "OverflowError" "int too large to convert to float")
  /\ requests (counters_after (run_openai_with_retry Sample.env_down "p" 1026)
                 Sample.start)
     = 1025
  /\ result_of (run_openai_with_retry Sample.env_down "p" 1026) Sample.start
     <> Raise Sample.busy.
Proof.
  assert (Hres : result_of (run_openai_with_retry Sample.env_down "p" 1026)
                   Sample.start
                 = Raise (mkExc "OverflowError"
                            "int too large to convert to float"))
    by (vm_compute; reflexivity).
  split; [|split; [|split]].
  - intros i. reflexivity.
  - exact Hres.
  - vm_compute. reflexivity.
  - rewrite Hres. discriminate.
Qed.

(* ===================================================================== *)
(** ** The background task: results *)
(* ===================================================================== *)

(** C3.  A run starts with the starting status.  Then, file by file in
    the order of [job["files"]]: a status naming the file, a call of the
    wrapper with [max_attempts = 3] on the prompt that holds the file
    name and the whole text of the file, a sleep of 5; the summary the
    call returned is kept under a line that names the file.  After the
    last file: the generating status, a status with the token estimate
    [len(final_prompt) // 4] of the final prompt, which is the template
    around the kept summaries, and the final call.  A file whose call
    raises ends the run there, with the error recorded. *)
Theorem orchestrator_step_order (env : Env) (job : Job) (s : Counters) :
  let t := trace_of (process_report_task env job) s in
  let steps_for (f : FileInfo) (inner : list Action) (summary : string) :=
    [Append (mkUpdate "status"
               ("Summarizing file: " +:+ filename f +:+ "..."));
     Call ("Summarize all critical vulnerabilities from the file '"
           +:+ filename f +:+ "'. TEXT: " +:+ content f)
       3 inner (Ok summary);
     Sleep 5] in
  exists done : list (FileInfo * list Action * string),
    (exists inner r,
        map (fun d => fst (fst d)) done = files job
        /\ let all_summaries :=
             map (fun d => "--- Summary from " +:+ filename (fst (fst d))
                           +:+ " ---" +:+ Py.LF +:+ snd d) done in
           let final_prompt :=
             PROMPT_TEMPLATE_head
             +:+ Py.join (Py.LF +:+ Py.LF) all_summaries
             +:+ PROMPT_TEMPLATE_tail in
           t = Append (mkUpdate "status"
                         "Starting consolidation process. Summarizing individual files...")
               :: flat_map (fun d => steps_for (fst (fst d)) (snd (fst d)) (snd d))
                    done
               ++ [Append (mkUpdate "status"
                             "All summaries created. Generating final consolidated report...");
                   Append (mkUpdate "status"
                             ("Final prompt created with ~"
                              +:+ Py.format_comma (String.length final_prompt / 4)
                              +:+ " tokens. Sending to OpenAI..."));
                   Call final_prompt 5 inner r]
               ++ closing r)
    \/ (exists f rest inner e,
        files job = map (fun d => fst (fst d)) done ++ f :: rest
        /\ t = Append (mkUpdate "status"
                         "Starting consolidation process. Summarizing individual files...")
               :: flat_map (fun d => steps_for (fst (fst d)) (snd (fst d)) (snd d))
                    done
               ++ [Append (mkUpdate "status"
                             ("Summarizing file: " +:+ filename f +:+ "..."));
                   Call ("Summarize all critical vulnerabilities from the file '"
                         +:+ filename f +:+ "'. TEXT: " +:+ content f)
                     3 inner (Raise e);
                   Append (mkUpdate "error"
                             ("An error occurred during report processing: "
                              +:+ exc_str e));
                   SetComplete]).
Proof.
  intros t steps_for.
  destruct (process_report_task_trace env job s)
    as [done [(inner & r & Hfiles & Ht & _) | (f & rest & inner & e & Hfiles & Ht & _)]].
  - exists done. left. exists inner, r. split; [exact Hfiles|]. exact Ht.
  - exists done. right. exists f, rest, inner, e. split; [exact Hfiles|].
    exact Ht.
Qed.

(* ===================================================================== *)
(** ** Jobs along a run *)
(* ===================================================================== *)

Lemma replay_app (j : Job) (t1 t2 : list Action) :
  replay j (t1 ++ t2) = replay (replay j t1) t2.
Proof. unfold replay. apply fold_left_app. Qed.

Lemma states_app (t1 t2 : list Action) :
  forall j, states j (t1 ++ t2) = states j t1 ++ states (replay j t1) t2.
Proof.
  induction t1 as [|a t1 IH]; intros j; [reflexivity|].
  cbn [app states]. rewrite IH. reflexivity.
Qed.

Lemma same_report_refl (j : Job) : same_report j j.
Proof. repeat split. Qed.

Lemma same_report_trans (j1 j2 j3 : Job) :
  same_report j1 j2 -> same_report j2 j3 -> same_report j1 j3.
Proof. unfold same_report. intros (?&?&?) (?&?&?). repeat split; congruence. Qed.

Lemma quiet_same_report (a : Action) (j : Job) :
  quiet a = true -> same_report j (apply_action a j).
Proof.
  destruct a as [p|q|u|text| |p n inner r]; cbn; intros Hq;
    try discriminate; try apply same_report_refl.
  repeat split. unfold report_events. cbn.
  rewrite List.filter_app. cbn. unfold is_report.
  destruct (String.eqb_spec (utype u) "status") as [->|_];
    [cbn; apply app_nil_r|].
  destruct (String.eqb_spec (utype u) "error") as [->|_];
    [cbn; apply app_nil_r | discriminate].
Qed.

(** Quiet actions keep the flag, the text and the report events, at every
    job on the way and at the end. *)
Lemma quiet_run (t : list Action) :
  Forall (fun a => quiet a = true) t ->
  forall j, Forall (same_report j) (states j t) /\ same_report j (replay j t).
Proof.
  induction 1 as [|a t Ha Ht IH]; intros j; cbn.
  - split; [constructor | apply same_report_refl].
  - pose proof (quiet_same_report a j Ha) as Hstep.
    destruct (IH (apply_action a j)) as [Hall Hend]. split.
    + constructor; [exact Hstep|].
      eapply Forall_impl; [exact Hall|].
      intros j'. cbn. apply same_report_trans. exact Hstep.
    + eapply same_report_trans; [exact Hstep | exact Hend].
Qed.

Lemma quiet_blocks (done : list Summarized) :
  Forall (fun a => quiet a = true) (flat_map file_block done).
Proof.
  induction done as [|d done IH]; cbn; [constructor|].
  repeat constructor. exact IH.
Qed.

(** A run is quiet actions, then what it records, then the flag; the
    outcome recorded is that of the last call of the wrapper, and a call
    with [max_attempts = 5] is made when every file was summarized. *)
Lemma process_report_task_split env job s :
  exists (body : list Action) (r : Result string),
    trace_of (process_report_task env job) s
    = body ++ recording r ++ [SetComplete]
    /\ Forall (fun a => quiet a = true) body
    /\ result_of (pipeline env job) s = pipeline_outcome r
    /\ (final_outcomes (trace_of (process_report_task env job) s) = [r]
        \/ final_outcomes (trace_of (process_report_task env job) s) = []
           /\ exists e, r = Raise e).
Proof.
  destruct (process_report_task_trace env job s)
    as [done [(inner & r & Hfiles & Ht & Hres) | (f & rest & inner & e & Hfiles & Ht & Hres)]].
  - exists (starting :: flat_map file_block done
            ++ [generating;
                status (token_status (final_prompt_of (map tag_of done)));
                Call (final_prompt_of (map tag_of done)) 5 inner r]), r.
    rewrite Ht. repeat split.
    + cbn. rewrite <- app_assoc. reflexivity.
    + constructor; [reflexivity|]. apply Forall_app. split.
      * apply quiet_blocks.
      * repeat constructor.
    + exact Hres.
    + left. unfold final_outcomes, closing.
      change (starting :: ?t) with ([starting] ++ t).
      rewrite !omap_app. cbn.
      replace (omap _ (flat_map file_block done)) with (@nil (Result string)).
      * destruct r as [md|e']; cbn; [destruct (Py.truthy md)|]; reflexivity.
      * clear. induction done as [|d done IH]; cbn; [reflexivity|exact IH].
  - exists (starting :: flat_map file_block done
            ++ [summarizing f; Call (prompt_of f) 3 inner (Raise e)]),
           (Raise e).
    rewrite Ht. repeat split.
    + cbn. rewrite <- app_assoc. reflexivity.
    + constructor; [reflexivity|]. apply Forall_app. split.
      * apply quiet_blocks.
      * repeat constructor.
    + exact Hres.
    + right. split; [|eauto]. unfold final_outcomes.
      change (starting :: ?t) with ([starting] ++ t).
      rewrite !omap_app. cbn.
      replace (omap _ (flat_map file_block done)) with (@nil (Result string));
        [reflexivity|].
      clear. induction done as [|d done IH]; cbn; [reflexivity|exact IH].
Qed.

Lemma truthy_nonempty (text : string) : Py.truthy text = true -> text <> "".
Proof. destruct text; [discriminate | intros _ H; discriminate H]. Qed.

Lemma recording_keeps_flag (r : Result string) (j : Job) :
  Forall (fun a => is_set_complete a = false) (recording r)
  /\ Forall (fun j' => is_complete j' = is_complete j) (states j (recording r))
  /\ is_complete (replay j (recording r)) = is_complete j.
Proof.
  destruct r as [md|e]; cbn; [destruct (Py.truthy md)|]; cbn;
    repeat split; repeat constructor.
Qed.



Lemma download_stored (docx_save : list Block -> list Byte.byte)
    (jobs : gmap string Job) (job_id : string) (j : Job) (text : string) :
  jobs !! job_id = Some j ->
  report_content j = Some text ->
  text <> "" ->
  download_report docx_save jobs job_id
  = if renders text
    then Returns (mkAttachment (docx_save (document_of text)) docx_media_type
                    [("Content-Disposition",
                      "attachment; filename=" +:+ report_filename job_id)])
    else Unhandled xml_error.
Proof.
  intros Hjob Htext Hne. unfold download_report, create_docx_report.
  rewrite Hjob, Htext.
  destruct text as [|c text]; [contradiction|]. cbn [Py.truthy_opt Py.truthy negb].
  change (default "" (Some (String c text))) with (String c text).
  destruct (renders (String c text)); reflexivity.
Qed.

(** C2.  A job is created with its flag false.  In a run of the task on
    a job whose flag is false, the flag is set once, by the last action:
    it is false at every job before, true at the end, whatever the [try]
    came to, and the task itself returns.  No action turns a true flag
    false, and an upload under a fresh identifier leaves the other jobs
    as they are. *)
Theorem completion_flag_set_once (env : Env) (job : Job) (s : Counters) :
  is_complete job = false ->
  let t := trace_of (process_report_task env job) s in
  (exists t0,
      t = t0 ++ [SetComplete]
      /\ Forall (fun a => is_set_complete a = false) t0
      /\ Forall (fun j => is_complete j = false) (states job t0))
  /\ is_complete (replay job t) = true
  /\ result_of (process_report_task env job) s = Ok tt
  /\ (forall a j, is_complete j = true -> is_complete (apply_action a j) = true)
  /\ (forall pdf_text decode uuid4 jobs f1 f2 f3 f4 job_id jobs' tasks,
        upload_files_for_processing pdf_text decode uuid4 jobs f1 f2 f3 f4
        = (Returns job_id, jobs', tasks) ->
        (exists j, jobs' !! job_id = Some j /\ is_complete j = false)
        /\ (jobs !! uuid4 = None ->
            forall other j, jobs !! other = Some j -> jobs' !! other = Some j)).
Proof.
  intros Hfalse t.
  destruct (process_report_task_split env job s)
    as (body & r & Ht & Hquiet & _ & _).
  fold t in Ht.
  destruct (quiet_run body Hquiet job) as [Hbody (Hflag & _ & _)].
  destruct (recording_keeps_flag r (replay job body)) as (Hrec1 & Hrec2 & Hrec3).
  repeat split.
  - exists (body ++ recording r). rewrite Ht, <- app_assoc. repeat split.
    + apply Forall_app. split; [|exact Hrec1].
      eapply Forall_impl; [exact Hquiet|].
      intros [ | | | | | ]; cbn; congruence.
    + rewrite states_app. apply Forall_app. split.
      * eapply Forall_impl; [exact Hbody|]. intros j' (Hc & _ & _). congruence.
      * eapply Forall_impl; [exact Hrec2|]. intros j' Hc. cbn in Hc. congruence.
  - rewrite Ht, !replay_app. reflexivity.
  - apply process_report_task_returns.
  - intros [ | | | | | ] j Hj; cbn; auto.
  - rename H into Hup. unfold upload_files_for_processing in Hup.
    destruct (omap provided [f1; f2; f3; f4]); [discriminate|].
    injection Hup as <- <- _. eexists.
    split; [apply lookup_insert_eq | reflexivity].
  - rename H into Hup. intros Hfresh other j Hother.
    unfold upload_files_for_processing in Hup.
    destruct (omap provided [f1; f2; f3; f4]); [discriminate|].
    injection Hup as <- <- _. rewrite lookup_insert_ne; [exact Hother|].
    intros ->. congruence.
Qed.







(** C6.  When the final call returns the empty string, the [try] ends
    with the [ValueError] about an empty response, the run appends an
    error event with that message and then sets the flag; no report text
    is stored at any point, and the download of the job answers 404 at
    every point of the run and after it. *)
Theorem empty_final_response_fails_job
    (docx_save : list Block -> list Byte.byte)
    (env : Env) (job : Job) (s : Counters) :
  report_content job = None ->
  final_outcomes (trace_of (process_report_task env job) s) = [Ok ""] ->
  let t := trace_of (process_report_task env job) s in
  result_of (pipeline env job) s
  = Raise (mkExc "ValueError"
             "The AI returned an empty response. This can be caused by content filters.")
  /\ (exists body,
        t = body
            ++ [Append (mkUpdate "error"
                  "An error occurred during report processing: The AI returned an empty response. This can be caused by content filters.");
                SetComplete]
        /\ Forall (fun a => quiet a = true) body)
  /\ Forall (fun j => report_content j = None) (states job t)
  /\ report_content (replay job t) = None
  /\ is_complete (replay job t) = true
  /\ (forall jobs job_id j,
        In j (states job t) ->
        jobs !! job_id = Some j ->
        download_report docx_save jobs job_id
        = HTTPException 404 "Report not found or not yet complete.").
Proof.
  intros Hnone Hempty t. subst t.
  destruct (process_report_task_split env job s)
    as (body & r & Ht & Hquiet & Hres & Hfinal).
  rewrite Hempty in Hfinal.
  destruct Hfinal as [Hr | [Hr _]]; [|discriminate].
  injection Hr as <-. cbn in Hres, Ht.
  destruct (quiet_run body Hquiet job) as [Hbody (_ & Hend & _)].
  assert (Hstates : Forall (fun j => report_content j = None)
            (states job (trace_of (process_report_task env job) s))).
  { rewrite Ht, states_app. apply Forall_app. split.
    - eapply Forall_impl; [exact Hbody|]. intros j (_ & Hc & _). congruence.
    - cbn. apply Forall_cons_2; [|apply Forall_cons_2; [|apply Forall_nil_2]];
        cbn; congruence. }
  repeat split.
  - exact Hres.
  - exists body. split; [exact Ht | exact Hquiet].
  - exact Hstates.
  - rewrite Ht, replay_app. cbn. congruence.
  - rewrite Ht, replay_app. reflexivity.
  - intros jobs job_id j Hin Hjob.
    rewrite List.Forall_forall in Hstates. specialize (Hstates j Hin).
    unfold download_report. rewrite Hjob, Hstates. reflexivity.
Qed.

Lemma empty_final_response_fails_job_witness :
  let t := trace_of (process_report_task Sample.env_filtered Sample.job_ab)
             Sample.start in
  result_of (pipeline Sample.env_filtered Sample.job_ab) Sample.start
  = Raise (mkExc "ValueError"
             "The AI returned an empty response. This can be caused by content filters.")
  /\ (exists body,
        t = body
            ++ [Append (mkUpdate "error"
                  "An error occurred during report processing: The AI returned an empty response. This can be caused by content filters.");
                SetComplete]
        /\ Forall (fun a => quiet a = true) body)
  /\ Forall (fun j => report_content j = None) (states Sample.job_ab t)
  /\ report_content (replay Sample.job_ab t) = None
  /\ is_complete (replay Sample.job_ab t) = true
  /\ (forall jobs job_id j,
        In j (states Sample.job_ab t) ->
        jobs !! job_id = Some j ->
        download_report Sample.no_save jobs job_id
        = HTTPException 404 "Report not found or not yet complete.").
Proof.
  apply (empty_final_response_fails_job Sample.no_save Sample.env_filtered
           Sample.job_ab Sample.start); vm_compute; reflexivity.
Defined.

(* ===================================================================== *)
(** ** The endpoints: results *)
(* ===================================================================== *)

Lemma provided_named (fields : list (option UploadFile)) :
  omap provided fields = named_files fields.
Proof.
  induction fields as [|f fields IH]; [reflexivity|].
  cbn [omap list_omap named_files flat_map]. fold (omap provided fields).
  rewrite IH.
  destruct f as [[[[|c name]|] bytes]|]; reflexivity.
Qed.

(** C8, as the code has it.  With no file that has a name the upload
    answers 400, leaves the dictionary as it is and schedules nothing.
    With one to four such files it stores, under the identifier drawn, a
    job with those files in the order of the fields, no event, the flag
    false and no report text, schedules the task for that identifier and
    returns the identifier.  The identifier is the one drawn: when it is
    not yet a key, the dictionary has one job more and the others are
    untouched; when it is one, the job that was there is replaced. *)
Theorem upload_creates_job
    (pdf_text : list Byte.byte -> Result string)
    (decode : list Byte.byte -> string)
    (uuid4 : string) (jobs : gmap string Job)
    (file1 file2 file3 file4 : option UploadFile) :
  let named := named_files [file1; file2; file3; file4] in
  let answer :=
    upload_files_for_processing pdf_text decode uuid4 jobs
      file1 file2 file3 file4 in
  length named <= 4
  /\ (named = [] ->
      answer = (HTTPException 400 "No files were uploaded.", jobs, []))
  /\ (named <> [] ->
      exists job,
        answer = (Returns uuid4, <[uuid4 := job]> jobs, [uuid4])
        /\ files job
           = map (fun f => mkFileInfo (default "" (uf_filename f))
                             (get_text_from_file pdf_text decode f)) named
        /\ status_updates job = []
        /\ is_complete job = false
        /\ report_content job = None
        /\ <[uuid4 := job]> jobs !! uuid4 = Some job
        /\ (forall other, other <> uuid4 ->
                          <[uuid4 := job]> jobs !! other = jobs !! other)
        /\ (jobs !! uuid4 = None ->
            size (<[uuid4 := job]> jobs) = S (size jobs))
        /\ (forall old, jobs !! uuid4 = Some old ->
                        size (<[uuid4 := job]> jobs) = size jobs)).
Proof.
  intros named answer. subst answer named.
  unfold upload_files_for_processing. rewrite provided_named.
  split; [|split].
  - destruct file1 as [[[[|c1 n1]|] b1]|], file2 as [[[[|c2 n2]|] b2]|],
      file3 as [[[[|c3 n3]|] b3]|], file4 as [[[[|c4 n4]|] b4]|]; cbn; lia.
  - intros ->. reflexivity.
  - intros Hsome.
    destruct (named_files [file1; file2; file3; file4]) as [|f given];
      [contradiction|].
    eexists. split; [reflexivity|]. cbn [files status_updates is_complete
      report_content]. repeat split.
    + apply lookup_insert_eq.
    + intros other Hother. apply lookup_insert_ne. congruence.
    + intros Hfresh. apply map_size_insert_None. exact Hfresh.
    + intros old Hold. apply map_size_insert_Some. eauto.
Qed.

Lemma upload_creates_job_witness :
  upload_files_for_processing (fun _ => Ok "") (fun _ => "Low severity")
    "job-1" ∅ (Some (mkUploadFile (Some "a.txt") [])) None
    (Some (mkUploadFile (Some "") [])) None
  = (Returns "job-1",
     <["job-1" := mkJob [mkFileInfo "a.txt" "Low severity"] [] false None]> ∅,
     [ "job-1" ]).
Proof.
  destruct (upload_creates_job (fun _ => Ok "") (fun _ => "Low severity")
              "job-1" ∅ (Some (mkUploadFile (Some "a.txt") [])) None
              (Some (mkUploadFile (Some "") [])) None)
    as (_ & _ & Hcreated).
  destruct (Hcreated ltac:(discriminate))
    as (job & Hanswer & Hfiles & Hevents & Hflag & Hreport & _).
  rewrite Hanswer. destruct job as [fs us done report].
  cbn in Hfiles, Hevents, Hflag, Hreport. subst. reflexivity.
Defined.

(** C8 as the spec words it fails when [uuid4] draws a value it has drawn
    before, which the code does not look for: two uploads, the second on
    the dictionary the first one left, return the same identifier, and
    the job of the first upload is replaced by the job of the second. *)
Lemma upload_reuses_an_identifier :
  let drawn := "6fa459ea-ee8a-4ca4-894e-db77e160355e" in
  let upload jobs name :=
    upload_files_for_processing (fun _ => Ok "") (fun _ => "Low severity")
      drawn jobs (Some (mkUploadFile (Some name) [])) None None None in
  let first := mkJob [mkFileInfo "a.txt" "Low severity"] [] false None in
  let second := mkJob [mkFileInfo "b.txt" "Low severity"] [] false None in
  let jobs : gmap string Job := {[ drawn := first ]} in
  upload ∅ "a.txt" = (Returns drawn, jobs, [drawn])
  /\ upload jobs "b.txt" = (Returns drawn, <[drawn := second]> jobs, [drawn])
  /\ <[drawn := second]> jobs !! drawn = Some second
  /\ size (<[drawn := second]> jobs) = 1
  /\ first <> second.
Proof.
  split; [|split; [|split; [|split]]].
  - reflexivity.
  - reflexivity.
  - apply lookup_insert_eq.
  - vm_compute. reflexivity.
  - discriminate.
Qed.



(* ===================================================================== *)
(** ** The progress stream: results *)
(* ===================================================================== *)

(** C7, where the code departs from it.  The stream of a known job takes
    its slice while the five status events are on the job; while it
    yields them the task appends the report event and sets the flag; the
    stream then moves its index past the event it never sent, sends the
    done message and ends.  The client gets six messages, none of them
    the report event. *)
Lemma stream_skips_events_appended_during_yield :
  let jobs : gmap string Job := {[ "job-1" := Sample.finished ]} in
  let sent := map (fun u => sse (Json.dumps_update u)) in
  status_updates Sample.finished
  = status_updates Sample.awaiting_final ++ [report_event]
  /\ is_complete Sample.awaiting_final = false
  /\ is_complete Sample.finished = true
  /\ stream_status jobs "job-1" [Sample.overtaken]
     = Returns
         (sent (status_updates Sample.awaiting_final) ++ [sse Json.dumps_done],
          Finished)
  /\ existsb (String.eqb (sse (Json.dumps_update report_event)))
       (sent (status_updates Sample.awaiting_final) ++ [sse Json.dumps_done])
     = false.
Proof.
  repeat split; vm_compute; reflexivity.
Qed.

Lemma growing_last (waiting : list Poll) (fin : Poll) :
  forall sent,
    growing sent (waiting ++ [fin]) ->
    sent `prefix_of` status_updates (at_read fin).
Proof.
  induction waiting as [|p waiting IH]; intros sent; cbn.
  - intros [H _]. exact H.
  - intros [H Hrest]. etrans; [exact H | apply IH, Hrest].
Qed.

(** What one steady turn sends and where it leaves the index. *)
Lemma steady_turn (sent : list Update) (p : Poll) :
  steady p ->
  sent `prefix_of` status_updates (at_read p) ->
  (if length sent <? length (status_updates (at_read p))
   then (map (fun update => sse (Json.dumps_update update))
           (drop (length sent) (status_updates (at_read p))),
         length (status_updates (after_yields p)),
         after_yields p)
   else ([], length sent, at_read p))
  = (map sse_update (drop (length sent) (status_updates (at_read p))),
     length (status_updates (at_read p)),
     at_read p).
Proof.
  intros [_ Hsame] Hpre. rewrite Hsame.
  pose proof (prefix_length _ _ Hpre) as Hlen.
  destruct (Nat.ltb_spec (length sent) (length (status_updates (at_read p))))
    as [Hlt|Hge]; [reflexivity|].
  rewrite drop_ge by lia. cbn. do 2 f_equal. lia.
Qed.

(** While the job does not change during the yields, every turn sends the
    events that are new since the turn before, and the turn that sees the
    flag set sends the done message and ends the stream. *)
Lemma event_generator_steady (waiting : list Poll) (fin : Poll) :
  forall sent,
    Forall (fun p => steady p /\ is_complete (at_read p) = false) waiting ->
    steady fin ->
    is_complete (at_read fin) = true ->
    growing sent (waiting ++ [fin]) ->
    event_generator (waiting ++ [fin]) (length sent)
    = (map sse_update (drop (length sent) (status_updates (at_read fin)))
       ++ [sse Json.dumps_done],
       Finished).
Proof.
  induction waiting as [|p waiting IH]; intros sent Hwait Hfin Hdone Hgrow.
  - cbn [app event_generator]. destruct Hgrow as [Hpre _].
    rewrite (steady_turn sent fin Hfin Hpre).
    destruct Hfin as [-> _]. rewrite Hdone. reflexivity.
  - apply Forall_cons_1 in Hwait as [[Hp Hopen] Hwait].
    cbn [app event_generator]. destruct Hgrow as [Hpre Hgrow].
    rewrite (steady_turn sent p Hp Hpre).
    destruct Hp as [-> _]. rewrite Hopen.
    rewrite (IH (status_updates (at_read p)) Hwait Hfin Hdone Hgrow).
    f_equal. rewrite app_assoc. f_equal.
    destruct (growing_last waiting fin _ Hgrow) as [k ->].
    rewrite drop_app_length, drop_app_le by (apply prefix_length, Hpre).
    rewrite map_app. reflexivity.
Qed.

(** The stream protocol when no event is appended while the stream
    yields: for a known job and a client that stays connected, turns that
    see growing events and at last the flag send every event once, in
    the order of the job's list, from index 0, then the done message,
    and the stream ends.  An unknown identifier is answered 404. *)
Theorem stream_delivers_all_when_steady (jobs : gmap string Job)
    (job_id : string) (waiting : list Poll) (fin : Poll) :
  Forall (fun p => steady p /\ is_complete (at_read p) = false) waiting ->
  steady fin ->
  is_complete (at_read fin) = true ->
  growing [] (waiting ++ [fin]) ->
  (is_Some (jobs !! job_id) ->
   stream_status jobs job_id (waiting ++ [fin])
   = Returns (map sse_update (status_updates (at_read fin))
              ++ [sse Json.dumps_done],
              Finished))
  /\ (jobs !! job_id = None ->
      stream_status jobs job_id (waiting ++ [fin])
      = HTTPException 404 "Job ID not found.").
Proof.
  intros Hwait Hfin Hdone Hgrow. unfold stream_status. split.
  - intros [j ->].
    change 0 with (length (@nil Update)).
    rewrite (event_generator_steady waiting fin [] Hwait Hfin Hdone Hgrow).
    reflexivity.
  - intros ->. reflexivity.
Qed.

Lemma stream_delivers_all_when_steady_witness :
  let jobs : gmap string Job := {[ "job-1" := Sample.finished ]} in
  let waiting := [mkPoll false Sample.job_ab Sample.job_ab;
                  mkPoll false Sample.awaiting_final Sample.awaiting_final] in
  let fin := mkPoll false Sample.finished Sample.finished in
  (is_Some (jobs !! "job-1") ->
   stream_status jobs "job-1" (waiting ++ [fin])
   = Returns (map sse_update (status_updates (at_read fin))
              ++ [sse Json.dumps_done],
              Finished))
  /\ (jobs !! "job-1" = None ->
      stream_status jobs "job-1" (waiting ++ [fin])
      = HTTPException 404 "Job ID not found.").
Proof.
  apply (stream_delivers_all_when_steady
           {[ "job-1" := Sample.finished ]} "job-1"
           [mkPoll false Sample.job_ab Sample.job_ab;
            mkPoll false Sample.awaiting_final Sample.awaiting_final]
           (mkPoll false Sample.finished Sample.finished)).
  - repeat apply Forall_cons_2; try apply Forall_nil_2;
      repeat split; vm_compute; reflexivity.
  - split; reflexivity.
  - vm_compute; reflexivity.
  - cbn. repeat split.
    + apply prefix_nil.
    + exists (status_updates Sample.awaiting_final). vm_compute. reflexivity.
    + exists [report_event]. vm_compute. reflexivity.
Defined.

(* ===================================================================== *)
(** ** Sample runs: the results at work *)
(* ===================================================================== *)

Lemma retry_returns_after_failures_witness :
  let inner :=
    failed_attempts Sample.env_flaky "p" 0 0 2 ++ [Request "p"] in
  run_openai_with_retry Sample.env_flaky "p" 3 Sample.start
  = (Ok "# Findings", mkCounters 3 2,
     [Call "p" 3 inner (Ok "# Findings")])
  /\ attempts_in inner = 3
  /\ sleeps_in inner
     = map (fun attempt => wait_time Sample.env_flaky attempt (0 + attempt))
         (seq 0 2)
  /\ (forall attempt, attempt < 2 ->
        (min_wait attempt <= wait_time Sample.env_flaky attempt (0 + attempt))%Q
        /\ (wait_time Sample.env_flaky attempt (0 + attempt)
            <= min_wait attempt + 1)%Q)
  /\ (forall attempt, (min_wait attempt < min_wait (S attempt))%Q).
Proof.
  apply (retry_returns_after_failures Sample.env_flaky "p" 3 2
           (fun _ => Sample.busy) (Some "# Findings") Sample.start).
  - lia.
  - lia.
  - lia.
  - intros i Hi. cbn. destruct i as [|[|i]]; [reflexivity | reflexivity | lia].
  - reflexivity.
  - intros n. cbn. split; discriminate.
Defined.

Lemma retry_gives_up_after_max_attempts_witness :
  let inner :=
    failed_attempts Sample.env_down "p" 0 0 2 ++ [Request "p"] in
  run_openai_with_retry Sample.env_down "p" 3 Sample.start
  = (Raise Sample.busy, mkCounters 3 2,
     [Call "p" 3 inner (Raise Sample.busy)])
  /\ attempts_in inner = 3
  /\ last inner = Some (Request "p")
  /\ call_outcomes
       (trace_of (process_report_task Sample.env_down Sample.job_ab)
          Sample.start)
     = [("Summarize all critical vulnerabilities from the file 'a.txt'. TEXT: Critical SQL injection in login",
         3%Z, Raise Sample.busy)].
Proof.
  destruct (retry_gives_up_after_max_attempts Sample.env_down "p" 3
              (fun _ => Sample.busy) Sample.start
              ltac:(lia) ltac:(lia) (fun i _ => eq_refl))
    as (Hrun & Hattempts & Hlast & _).
  split; [exact Hrun|]. split; [exact Hattempts|]. split; [exact Hlast|].
  vm_compute. reflexivity.
Defined.

Lemma completion_flag_set_once_witness :
  let t := Sample.run_ok in
  (exists t0,
      t = t0 ++ [SetComplete]
      /\ Forall (fun a => is_set_complete a = false) t0
      /\ Forall (fun j => is_complete j = false) (states Sample.job_ab t0))
  /\ is_complete (replay Sample.job_ab t) = true
  /\ result_of (process_report_task Sample.env_ok Sample.job_ab) Sample.start
     = Ok tt
  /\ (forall a j, is_complete j = true -> is_complete (apply_action a j) = true)
  /\ (forall pdf_text decode uuid4 jobs f1 f2 f3 f4 job_id jobs' tasks,
        upload_files_for_processing pdf_text decode uuid4 jobs f1 f2 f3 f4
        = (Returns job_id, jobs', tasks) ->
        (exists j, jobs' !! job_id = Some j /\ is_complete j = false)
        /\ (jobs !! uuid4 = None ->
            forall other j, jobs !! other = Some j -> jobs' !! other = Some j)).
Proof.
  apply (completion_flag_set_once Sample.env_ok Sample.job_ab Sample.start).
  reflexivity.
Defined.


(* ===================================================================== *)
(** ** Further results *)
(* ===================================================================== *)

(** The token estimate: nothing for the empty text, [len(text) // 4]
    otherwise, and 850 for the template with nothing put in. *)
Theorem count_tokens_estimate :
  count_tokens "" = 0
  /\ (forall text, count_tokens text = String.length text / 4)
  /\ BASE_PROMPT_TOKENS = 850.
Proof.
  split; [reflexivity | split; [reflexivity | vm_compute; reflexivity]].
Qed.

(** A run that stops at a file, so that no final call is made, leaves no
    report event and no report text on the job, sets the flag, and the
    download of the job answers 404. *)
Theorem summarization_failure_leaves_no_report
    (docx_save : list Block -> list Byte.byte)
    (env : Env) (job : Job) (s : Counters) :
  report_events job = [] ->
  report_content job = None ->
  final_outcomes (trace_of (process_report_task env job) s) = [] ->
  let t := trace_of (process_report_task env job) s in
  let final := replay job t in
  (exists e body,
      result_of (pipeline env job) s = Raise e
      /\ t = body ++ [error_event e; SetComplete]
      /\ Forall (fun a => quiet a = true) body)
  /\ report_events final = []
  /\ report_content final = None
  /\ is_complete final = true
  /\ (forall jobs job_id,
        jobs !! job_id = Some final ->
        download_report docx_save jobs job_id
        = HTTPException 404 "Report not found or not yet complete.").
Proof.
  intros Hnone Hnotext Hnofinal t final. subst final t.
  destruct (process_report_task_split env job s)
    as (body & r & Ht & Hquiet & Hres & Hfinal).
  rewrite Hnofinal in Hfinal.
  destruct Hfinal as [Hr | [_ [e ->]]]; [discriminate|].
  cbn in Hres, Ht.
  destruct (quiet_run (body ++ [error_event e])) with (j := job)
    as [_ (_ & Htext & Hev)].
  { apply Forall_app. split; [exact Hquiet|]. repeat constructor. }
  assert (Hrun : trace_of (process_report_task env job) s
                 = (body ++ [error_event e]) ++ [SetComplete])
    by (rewrite Ht, <- app_assoc; reflexivity).
  assert (Hcontent :
            report_content (replay job (trace_of (process_report_task env job) s))
            = None).
  { rewrite Hrun, replay_app. cbn. congruence. }
  repeat split.
  - exists e, body. auto.
  - rewrite Hrun, replay_app. unfold report_events in *. cbn. congruence.
  - exact Hcontent.
  - rewrite Hrun, replay_app. reflexivity.
  - intros jobs job_id Hjob. unfold download_report.
    rewrite Hjob, Hcontent. reflexivity.
Qed.

Lemma summarization_failure_leaves_no_report_witness :
  let t := trace_of (process_report_task Sample.env_down Sample.job_ab)
             Sample.start in
  let final := replay Sample.job_ab t in
  (exists e body,
      result_of (pipeline Sample.env_down Sample.job_ab) Sample.start = Raise e
      /\ t = body ++ [error_event e; SetComplete]
      /\ Forall (fun a => quiet a = true) body)
  /\ report_events final = []
  /\ report_content final = None
  /\ is_complete final = true
  /\ (forall jobs job_id,
        jobs !! job_id = Some final ->
        download_report Sample.no_save jobs job_id
        = HTTPException 404 "Report not found or not yet complete.").
Proof.
  apply (summarization_failure_leaves_no_report Sample.no_save Sample.env_down
           Sample.job_ab Sample.start); vm_compute; reflexivity.
Defined.

(** The task on the dictionary: for a known identifier it returns, sets
    the flag of that job and leaves every other job as it is. *)
Theorem task_marks_its_job_complete (env : Env) (jobs : gmap string Job)
    (job_id : string) (job : Job) (s : Counters) :
  jobs !! job_id = Some job ->
  exists t final,
    process_report_task_in env jobs job_id s
    = (Ok tt, <[job_id := final]> jobs, t)
    /\ is_complete final = true
    /\ files final = files job
    /\ forall other, other <> job_id ->
                     <[job_id := final]> jobs !! other = jobs !! other.
Proof.
  intros Hjob. unfold process_report_task_in. rewrite Hjob.
  pose proof (process_report_task_returns env job s) as Hret.
  destruct (process_report_task_split env job s)
    as (body & r & Ht & _ & _ & _).
  unfold result_of, trace_of in Hret, Ht.
  destruct (process_report_task env job s) as [[res s'] t]. cbn in Hret, Ht.
  subst res. exists t, (replay job t). repeat split.
  - rewrite Ht, !replay_app. reflexivity.
  - clear. revert job. induction t as [|a t IH]; intros job; [reflexivity|].
    cbn. unfold replay in IH. rewrite IH.
    destruct a; reflexivity.
  - intros other Hother. apply lookup_insert_ne. congruence.
Qed.

Lemma task_marks_its_job_complete_witness :
  let jobs : gmap string Job := {[ "job-1" := Sample.job_ab ]} in
  exists t final,
    process_report_task_in Sample.env_ok jobs "job-1" Sample.start
    = (Ok tt, <[ "job-1" := final ]> jobs, t)
    /\ is_complete final = true
    /\ files final = files Sample.job_ab
    /\ forall other, other <> "job-1" ->
                     <[ "job-1" := final ]> jobs !! other = jobs !! other.
Proof.
  apply (task_marks_its_job_complete Sample.env_ok
           {[ "job-1" := Sample.job_ab ]} "job-1" Sample.job_ab Sample.start).
  vm_compute. reflexivity.
Defined.

(* ===================================================================== *)
(** ** The retry wrapper under any client *)
(* ===================================================================== *)

(** What the loop does, whatever the client answers: nothing when no
    attempt is left; otherwise some failed attempts, each followed by a
    wait, and one last request that either answers, or is the last
    attempt allowed and fails, or fails at an attempt from 1024 on that
    is not the last, where the wait cannot be computed. *)
Lemma retry_loop_cases (env : Env) (prompt : string) (N : Z) :
  forall (n a : nat) (s : Counters),
    Z.of_nat (a + n) = N ->
    exists r s' t,
      retry_loop env prompt N (seq a n) s = (r, s', t)
      /\ ((n = 0 /\ r = Ok "" /\ s' = s /\ t = [])
          \/ exists k,
               k < n
               /\ (k = 0 \/ a + k <= 1024)
               /\ t = failed_attempts env prompt a (draws s) k
                      ++ [Request prompt]
               /\ requests s' = requests s + k + 1
               /\ ((exists c, ai env (requests s + k) prompt = Content c
                              /\ r = Ok (default "" c)
                              /\ draws s' = draws s + k)
                   \/ (k = n - 1
                       /\ exists e, ai env (requests s + k) prompt = Fails e
                                    /\ r = Raise e
                                    /\ draws s' = draws s + k)
                   \/ (k < n - 1 /\ 1024 <= a + k
                       /\ r = Raise overflow_error
                       /\ draws s' = draws s + k + 1))).
Proof.
  induction n as [|n IH]; intros a s HN.
  - exists (Ok ""), s, []. split; [reflexivity|]. left. auto.
  - cbn [seq retry_loop]. unfold_M. cbn [requests draws].
    destruct (ai env (requests s) prompt) as [c|e] eqn:Hai.
    + eexists _, _, _. split; [reflexivity|]. right. exists 0.
      rewrite !Nat.add_0_r, content_or_empty. cbn.
      repeat split; try lia; auto.
      left. exists c. auto.
    + destruct (Z.eqb_spec (Z.of_nat a) (N - 1)) as [Hlast|Hmore].
      * eexists _, _, _. split; [reflexivity|]. right. exists 0.
        rewrite !Nat.add_0_r. cbn. repeat split; try lia; auto.
        right. left. split; [lia|]. exists e. auto.
      * destruct (Nat.leb_spec 1024 a) as [Hbig|Hsmall].
        -- eexists _, _, _. split; [reflexivity|]. right. exists 0.
           rewrite !Nat.add_0_r. cbn. repeat split; try lia; auto.
           right. right. repeat split; lia.
        -- destruct (IH (S a) (mkCounters (S (requests s)) (S (draws s))))
             as (r & s' & t & Hrun & Hcases); [lia|].
           cbn [requests draws]. rewrite Hrun. cbn [app].
           eexists _, _, _. split; [reflexivity|]. right.
           destruct Hcases as [(Hn & _) | (k & Hk & Hk1024 & Ht & Hs & Hend)];
             [lia|].
           cbn [requests draws] in *. exists (S k).
           split; [lia|]. split; [right; lia|].
           split; [rewrite Ht; reflexivity|]. split; [lia|].
           replace (requests s + S k) with (S (requests s) + k) by lia.
           destruct Hend as [(c & Hc & Hr & Hd)
                            | [(Hk' & e' & He & Hr & Hd)
                              | (Hk' & Hbig & Hr & Hd)]].
           ++ left. exists c. repeat split; auto. lia.
           ++ right. left. split; [lia|]. exists e'. repeat split; auto. lia.
           ++ right. right. repeat split; auto; lia.
Qed.

Lemma sleeps_in_failed_length env prompt k :
  forall a d, length (sleeps_in (failed_attempts env prompt a d k)) = k.
Proof.
  intros a d. rewrite sleeps_in_failed, length_map, length_seq. reflexivity.
Qed.

(** One call of the wrapper, whatever the client answers. *)
Lemma run_openai_with_retry_shape (env : Env) (prompt : string) (N : Z)
    (s : Counters) :
  exists r s' inner,
    run_openai_with_retry env prompt N s = (r, s', [Call prompt N inner r])
    /\ attempts_in inner <= Z.to_nat N
    /\ length (sleeps_in inner) = attempts_in inner - 1
    /\ requests s' = requests s + attempts_in inner
    /\ attempts_in inner <= 1025
    /\ (inner = [] \/ last inner = Some (Request prompt))
    /\ ((N <= 0)%Z -> inner = [] /\ r = Ok "" /\ s' = s)
    /\ (forall e, r = Raise e ->
                  (attempts_in inner = Z.to_nat N /\ (1 <= N)%Z
                   /\ draws s' = draws s + length (sleeps_in inner))
                  \/ (e = overflow_error /\ attempts_in inner = 1025
                      /\ (1026 <= N)%Z
                      /\ draws s' = draws s + length (sleeps_in inner) + 1))
    /\ (forall text, r = Ok text ->
                     draws s' = draws s + length (sleeps_in inner)).
Proof.
  unfold run_openai_with_retry.
  destruct (Z_le_gt_dec N 0) as [Hnone|Hsome].
  { replace (Z.to_nat N) with 0 by lia. cbn.
    exists (Ok ""), s, []. cbn.
    repeat split; try lia; auto; try discriminate. }
  destruct (retry_loop_cases env prompt N (Z.to_nat N) 0 s)
    as (r & s' & t & Hrun & Hcases); [lia|].
  rewrite Hrun. exists r, s', t. split; [reflexivity|].
  destruct Hcases as [(Hn & _) | (k & Hk & Hk1024 & -> & Hreq & Hend)]; [lia|].
  rewrite attempts_in_app, attempts_in_failed, sleeps_in_app.
  change (attempts_in [Request prompt]) with 1.
  change (sleeps_in [Request prompt]) with (@nil Q).
  rewrite app_nil_r, sleeps_in_failed_length.
  split; [lia|]. split; [lia|]. split; [lia|]. split; [lia|].
  split; [right; apply last_snoc|]. split; [lia|]. split.
  - intros e He.
    destruct Hend as [(c & _ & Hr & _)
                     | [(Hk' & e' & _ & Hr & Hd) | (Hk' & Hbig & Hr & Hd)]].
    + congruence.
    + left. repeat split; lia.
    + right. assert (e = overflow_error) by congruence.
      repeat split; auto; lia.
  - intros text Htext.
    destruct Hend as [(c & _ & _ & Hd)
                     | [(_ & e' & _ & Hr & _) | (_ & _ & Hr & _)]];
      [exact Hd | congruence | congruence].
Qed.

(** The wrapper under any client: at most [max_attempts] requests and
    never more than 1025, a wait after every request but the last and
    none after it; with [max_attempts <= 0] no request at all and the
    empty string as the result.  It raises either after [max_attempts]
    failed requests, or, when [max_attempts] is 1026 or more, after 1025
    failed requests, with the [OverflowError] of the wait it could not
    compute. *)
Theorem retry_wrapper_behaviour (env : Env) (prompt : string) (N : Z)
    (s : Counters) :
  exists r s' inner,
    run_openai_with_retry env prompt N s = (r, s', [Call prompt N inner r])
    /\ attempts_in inner <= Z.to_nat N
    /\ length (sleeps_in inner) = attempts_in inner - 1
    /\ requests s' = requests s + attempts_in inner
    /\ attempts_in inner <= 1025
    /\ (inner = [] \/ last inner = Some (Request prompt))
    /\ ((N <= 0)%Z -> inner = [] /\ r = Ok "" /\ s' = s)
    /\ (forall e, r = Raise e ->
                  (attempts_in inner = Z.to_nat N /\ (1 <= N)%Z
                   /\ draws s' = draws s + length (sleeps_in inner))
                  \/ (e = mkExc "OverflowError"
                            "int too large to convert to float"
                      /\ attempts_in inner = 1025
                      /\ (1026 <= N)%Z
                      /\ draws s' = draws s + length (sleeps_in inner) + 1))
    /\ (forall text, r = Ok text ->
                     draws s' = draws s + length (sleeps_in inner)).
Proof. apply run_openai_with_retry_shape. Qed.

Lemma total_wait_failed (env : Env) (prompt : string) :
  (forall n, (0 <= uniform env n)%Q /\ (uniform env n <= 1)%Q) ->
  forall k a d,
    (inject_Z (2 ^ Z.of_nat (a + k) - 2 ^ Z.of_nat a)
     <= total_wait (sleeps_in (failed_attempts env prompt a d k)))%Q
    /\ (total_wait (sleeps_in (failed_attempts env prompt a d k))
        <= inject_Z (2 ^ Z.of_nat (a + k) - 2 ^ Z.of_nat a + Z.of_nat k))%Q.
Proof.
  intros Hunif. induction k as [|k IH]; intros a d.
  - rewrite Nat.add_0_r, Z.sub_diag. cbn. split; apply Qle_refl.
  - cbn [failed_attempts]. unfold sleeps_in. cbn [omap list_omap].
    fold (sleeps_in (failed_attempts env prompt (S a) (S d) k)).
    cbn [total_wait fold_right].
    fold (total_wait (sleeps_in (failed_attempts env prompt (S a) (S d) k))).
    destruct (IH (S a) (S d)) as [Hlo Hhi].
    destruct (wait_time_bounds env a d) as [Wlo Whi]; try apply Hunif.
    unfold min_wait in Wlo, Whi.
    replace (a + S k) with (S a + k) by lia.
    set (y := (2 ^ Z.of_nat (S a + k))%Z) in *.
    replace (2 ^ Z.of_nat (S a))%Z with (2 * 2 ^ Z.of_nat a)%Z in *
      by (rewrite Nat2Z.inj_succ, Z.pow_succ_r; lia).
    set (x := (2 ^ Z.of_nat a)%Z) in *.
    replace (Z.of_nat (S k)) with (Z.of_nat k + 1)%Z by lia.
    set (T := total_wait _) in *. set (w := wait_time env a d) in *.
    unfold Z.sub in *.
    rewrite ?inject_Z_plus, ?inject_Z_opp, ?inject_Z_mult in *.
    change (inject_Z 2) with 2%Q in *. change (inject_Z 1) with 1%Q.
    split; lra.
Qed.

(** The waiting a call of the wrapper adds, for draws in [0, 1]: with
    [k] waits, at least [2^k - 1] and at most [2^k - 1 + k] in all, so at
    most [2^(N-1) + N - 2] for [max_attempts = N >= 1]: 5 for the calls
    with 3 attempts and 19 for the call with 5.  There are never more
    than 1024 waits. *)
Theorem retry_wrapper_total_wait (env : Env) (prompt : string) (N : Z)
    (s : Counters) (r : Result string) (s' : Counters)
    (inner : list Action) :
  (1 <= N)%Z ->
  (forall n, (0 <= uniform env n)%Q /\ (uniform env n <= 1)%Q) ->
  run_openai_with_retry env prompt N s = (r, s', [Call prompt N inner r]) ->
  let waits := sleeps_in inner in
  (inject_Z (2 ^ Z.of_nat (length waits) - 1) <= total_wait waits)%Q
  /\ (total_wait waits
      <= inject_Z (2 ^ Z.of_nat (length waits) - 1 + Z.of_nat (length waits)))%Q
  /\ (total_wait waits <= inject_Z (2 ^ (N - 1) + N - 2))%Q
  /\ (N = 3%Z -> (total_wait waits <= 5)%Q)
  /\ (N = 5%Z -> (total_wait waits <= 19)%Q)
  /\ length waits <= 1024.
Proof.
  intros HN Hunif Hrun waits. subst waits.
  unfold run_openai_with_retry in Hrun.
  destruct (retry_loop_cases env prompt N (Z.to_nat N) 0 s)
    as (r0 & s0 & t & Hloop & Hcases); [lia|].
  rewrite Hloop in Hrun. injection Hrun as -> -> ->.
  destruct Hcases as [(Hn & _) | (k & Hk & Hk1024 & -> & _ & _)]; [lia|].
  rewrite sleeps_in_app. change (sleeps_in [Request prompt]) with (@nil Q).
  rewrite app_nil_r, sleeps_in_failed_length.
  destruct (total_wait_failed env prompt Hunif k 0 (draws s)) as [Hlo Hhi].
  cbn [Nat.add] in Hlo, Hhi. change (2 ^ Z.of_nat 0)%Z with 1%Z in Hlo, Hhi.
  assert (Hmono : (2 ^ Z.of_nat k - 1 + Z.of_nat k <= 2 ^ (N - 1) + N - 2)%Z).
  { assert (2 ^ Z.of_nat k <= 2 ^ (N - 1))%Z
      by (apply Z.pow_le_mono_r; lia).
    lia. }
  assert (Hall : (total_wait (sleeps_in (failed_attempts env prompt 0 (draws s) k))
                  <= inject_Z (2 ^ (N - 1) + N - 2))%Q).
  { eapply Qle_trans; [exact Hhi|]. rewrite <- Zle_Qle. exact Hmono. }
  repeat split; auto.
  - intros ->. exact Hall.
  - intros ->. exact Hall.
  - lia.
Qed.

Lemma retry_wrapper_total_wait_witness :
  let inner := failed_attempts Sample.env_down "p" 0 0 2 ++ [Request "p"] in
  let waits := sleeps_in inner in
  (inject_Z (2 ^ Z.of_nat (length waits) - 1) <= total_wait waits)%Q
  /\ (total_wait waits
      <= inject_Z (2 ^ Z.of_nat (length waits) - 1 + Z.of_nat (length waits)))%Q
  /\ (total_wait waits <= inject_Z (2 ^ (3 - 1) + 3 - 2))%Q
  /\ (3%Z = 3%Z -> (total_wait waits <= 5)%Q)
  /\ (3%Z = 5%Z -> (total_wait waits <= 19)%Q)
  /\ length waits <= 1024.
Proof.
  apply (retry_wrapper_total_wait Sample.env_down "p" 3 Sample.start
           (Raise Sample.busy) (mkCounters 3 2)).
  - lia.
  - intros n. cbn. split; discriminate.
  - reflexivity.
Defined.

(* ===================================================================== *)
(** ** What a run costs *)
(* ===================================================================== *)

Lemma requests_in_calls_app (t1 t2 : list Action) :
  requests_in_calls (t1 ++ t2) = requests_in_calls t1 + requests_in_calls t2.
Proof. unfold requests_in_calls. apply sum_list_with_app. Qed.

(** The requests of the loop over the files: those inside its calls, at
    most three for each file. *)
Lemma summarize_files_requests (env : Env) :
  forall (fs : list FileInfo) (acc : list string) (s : Counters),
    requests (counters_after (summarize_files env fs acc) s)
    = requests s + requests_in_calls (trace_of (summarize_files env fs acc) s)
    /\ requests_in_calls (trace_of (summarize_files env fs acc) s)
       <= 3 * length fs.
Proof.
  unfold counters_after, trace_of.
  induction fs as [|f fs IH]; intros acc s.
  - cbn. split; lia.
  - cbn [summarize_files]. unfold_M.
    destruct (run_openai_with_retry_shape env
                (summary_prompt (filename f) (content f)) 3 s)
      as (r & s1 & inner & Hcall & Hle & _ & Hreq & _).
    rewrite Hcall. destruct r as [summary|e].
    + specialize (IH (acc ++ [tagged_summary (filename f) summary]) s1).
      destruct (summarize_files env fs _ s1) as [[r2 s2] t2].
      cbn in IH |- *. unfold requests_in_calls in *. cbn.
      change (Z.to_nat 3) with 3 in Hle. lia.
    + cbn. unfold requests_in_calls. cbn.
      change (Z.to_nat 3) with 3 in Hle. lia.
Qed.

(** The cost of a run on [n] files, whatever the client answers: the
    requests made are those inside the calls of the wrapper, at most
    [3 n + 5]; at most [n + 1] calls; and the pauses between the calls
    are 5 each, one for every file that was summarized. *)
Theorem run_cost (env : Env) (job : Job) (s : Counters) :
  let t := trace_of (process_report_task env job) s in
  let n := length (files job) in
  requests (counters_after (process_report_task env job) s)
  = requests s + requests_in_calls t
  /\ requests_in_calls t <= 3 * n + 5
  /\ length (calls_in t) <= n + 1
  /\ exists k, k <= n /\ sleeps_in t = repeat 5%Q k
               /\ (final_outcomes t <> [] -> k = n).
Proof.
  intros t n. subst t n. repeat split.
  - unfold counters_after, trace_of, process_report_task, try_finally,
      try_except, pipeline. unfold_M.
    pose proof (summarize_files_requests env (files job) [] s) as [Hreq _].
    unfold counters_after, trace_of in Hreq.
    destruct (summarize_files env (files job) [] s) as [[[sums|e] s1] t1];
      cbn in Hreq |- *.
    + destruct (run_openai_with_retry_shape env (final_prompt_of sums) 5 s1)
        as (r & s2 & inner & Hcall & _ & _ & Hreq2 & _).
      rewrite Hcall.
      destruct r as [md|e]; cbn; [destruct (Py.truthy md); cbn|];
        rewrite ?app_nil_r, ?sum_list_with_app; cbn; lia.
    + rewrite ?app_nil_r, ?sum_list_with_app. cbn. lia.
  - unfold trace_of, process_report_task, try_finally, try_except, pipeline.
    unfold_M.
    pose proof (summarize_files_requests env (files job) [] s) as [_ Hle].
    unfold trace_of in Hle.
    destruct (summarize_files env (files job) [] s) as [[[sums|e] s1] t1];
      cbn in Hle |- *.
    + destruct (run_openai_with_retry_shape env (final_prompt_of sums) 5 s1)
        as (r & s2 & inner & Hcall & Hle5 & _).
      rewrite Hcall. change (Z.to_nat 5) with 5 in Hle5.
      destruct r as [md|e]; cbn; [destruct (Py.truthy md); cbn|];
        rewrite ?app_nil_r, ?sum_list_with_app; cbn; lia.
    + rewrite ?app_nil_r, ?sum_list_with_app. cbn. lia.
  - destruct (process_report_task_trace env job s)
      as [done [(inner & r & Hfiles & Ht & _) | (f & rest & inner & e & Hfiles & Ht & _)]];
      rewrite Ht; change (starting :: ?t) with ([starting] ++ t);
      rewrite !calls_in_app, calls_in_blocks, ?calls_in_closing;
      cbn; rewrite !length_app, !length_map; cbn.
    + rewrite <- Hfiles, length_map. lia.
    + rewrite Hfiles, length_app, length_map. cbn. lia.
  - assert (Hblocks : forall done : list Summarized,
               sleeps_in (flat_map file_block done) = repeat 5%Q (length done)).
    { induction done as [|d done IH]; [reflexivity|].
      cbn [flat_map]. rewrite sleeps_in_app, IH. reflexivity. }
    destruct (process_report_task_trace env job s)
      as [done [(inner & r & Hfiles & Ht & _) | (f & rest & inner & e & Hfiles & Ht & _)]].
    + exists (length done). rewrite Ht.
      change (starting :: ?t) with ([starting] ++ t).
      rewrite !sleeps_in_app, Hblocks.
      replace (sleeps_in (closing r)) with (@nil Q)
        by (destruct r as [md|e]; cbn; [destruct (Py.truthy md)|]; reflexivity).
      cbn. rewrite app_nil_r, <- Hfiles, length_map. auto.
    + exists (length done). rewrite Ht.
      change (starting :: ?t) with ([starting] ++ t).
      rewrite !sleeps_in_app, Hblocks. cbn. rewrite app_nil_r.
      rewrite Hfiles, length_app, length_map. repeat split; [lia|].
      intros Hfinal. exfalso. apply Hfinal. unfold final_outcomes.
      rewrite !omap_app. cbn.
      replace (omap _ (flat_map file_block done)) with (@nil (Result string));
        [reflexivity|].
      clear. induction done as [|d done IH]; cbn; [reflexivity|exact IH].
Qed.

(* ===================================================================== *)
(** ** The events of a job *)
(* ===================================================================== *)

Lemma appends_in_app (t1 t2 : list Action) :
  appends_in (t1 ++ t2) = appends_in t1 ++ appends_in t2.
Proof. unfold appends_in. apply omap_app. Qed.

Lemma status_updates_replay (t : list Action) :
  forall j, status_updates (replay j t) = status_updates j ++ appends_in t.
Proof.
  induction t as [|a t IH]; intros j.
  - cbn. rewrite app_nil_r. reflexivity.
  - change (replay j (a :: t)) with (replay (apply_action a j) t).
    rewrite IH. destruct a; cbn; try reflexivity.
    rewrite <- app_assoc. reflexivity.
Qed.

Lemma appends_in_blocks (done : list Summarized) :
  appends_in (flat_map file_block done)
  = map (fun d => mkUpdate "status"
                    ("Summarizing file: " +:+ filename (file_of d) +:+ "..."))
      done.
Proof.
  induction done as [|d done IH]; [reflexivity|].
  cbn [flat_map map]. rewrite appends_in_app, IH. reflexivity.
Qed.

Lemma appends_in_recording (r : Result string) :
  appends_in (recording r)
  = [match pipeline_outcome r with
     | Ok _ => report_event
     | Raise e => mkUpdate "error" (error_message e)
     end].
Proof. destruct r as [md|e]; cbn; [destruct (Py.truthy md)|]; reflexivity. Qed.

Lemma report_content_recording (r : Result string) (j : Job) :
  match pipeline_outcome r with
  | Ok _ => exists md, report_content (replay j (recording r)) = Some md
                       /\ md <> ""
  | Raise _ => report_content (replay j (recording r)) = report_content j
  end.
Proof.
  destruct r as [md|e]; cbn; [destruct (Py.truthy md) eqn:Hmd|]; cbn; auto.
  exists md. split; [reflexivity | apply truthy_nonempty, Hmd].
Qed.

(** The events of a job when its run is over, for a job that starts with
    none: status events (the starting one, one for each file reached, and
    after the last file the generating one and the one with the token
    estimate), then one last event, which is the report event when the
    [try] ended well, with a report text stored, and otherwise the error
    event with the message of the exception, with the report text left as
    it was. *)
Theorem finished_job_events (env : Env) (job : Job) (s : Counters) :
  status_updates job = [] ->
  let final := replay job (trace_of (process_report_task env job) s) in
  exists statuses last,
    status_updates final = statuses ++ [last]
    /\ Forall (fun u => is_status u = true) statuses
    /\ 1 <= length statuses <= length (files job) + 3
    /\ match result_of (pipeline env job) s with
       | Ok _ =>
           last = mkUpdate "report" "Report content generated."
           /\ length statuses = length (files job) + 3
           /\ exists md, report_content final = Some md /\ md <> ""
       | Raise e =>
           last = mkUpdate "error"
                    ("An error occurred during report processing: "
                     +:+ exc_str e)
           /\ report_content final = report_content job
       end.
Proof.
  intros Hempty final. subst final.
  assert (Hquiet : forall done : list Summarized,
             Forall (fun a => quiet a = true)
               (starting :: flat_map file_block done)).
  { intros done. constructor; [reflexivity | apply quiet_blocks]. }
  assert (Hstatus : forall done : list Summarized,
             Forall (fun u => is_status u = true)
               (appends_in (flat_map file_block done))).
  { intros done. rewrite appends_in_blocks. apply Forall_map.
    apply Forall_forall. intros d _. reflexivity. }
  destruct (process_report_task_trace env job s)
    as [done [(inner & r & Hfiles & Ht & Hres) | (f & rest & inner & e & Hfiles & Ht & Hres)]].
  - set (body := starting :: flat_map file_block done
                 ++ [generating;
                     status (token_status (final_prompt_of (map tag_of done)));
                     Call (final_prompt_of (map tag_of done)) 5 inner r]).
    assert (Hrun : trace_of (process_report_task env job) s
                   = body ++ recording r ++ [SetComplete]).
    { rewrite Ht. unfold body, closing. cbn. rewrite <- app_assoc.
      reflexivity. }
    assert (Hbody : Forall (fun a => quiet a = true) body).
    { unfold body. constructor; [reflexivity|]. apply Forall_app. split;
        [apply quiet_blocks | repeat constructor]. }
    destruct (quiet_run body Hbody job) as [_ (_ & Hcontent & _)].
    exists (appends_in body),
      (match pipeline_outcome r with
       | Ok _ => report_event
       | Raise e => mkUpdate "error" (error_message e)
       end).
    assert (Hlen : length (appends_in body) = length (files job) + 3).
    { unfold body. change (starting :: ?t) with ([starting] ++ t).
      rewrite !appends_in_app, appends_in_blocks. cbn.
      rewrite length_app, length_map. cbn.
      rewrite <- Hfiles, length_map. lia. }
    repeat split.
    + rewrite Hrun, status_updates_replay, Hempty, !appends_in_app,
        appends_in_recording. cbn. rewrite ?app_nil_r. reflexivity.
    + unfold body. change (starting :: ?t) with ([starting] ++ t).
      rewrite !appends_in_app. repeat (apply Forall_app; split);
        try apply Hstatus; repeat constructor.
    + lia.
    + lia.
    + rewrite Hres, Hrun, !replay_app.
      pose proof (report_content_recording r (replay job body)) as Hrec.
      destruct (pipeline_outcome r) as [[]|e].
      * destruct Hrec as (md & Hmd & Hne). repeat split; [exact Hlen|].
        exists md. split; [exact Hmd | exact Hne].
      * split; [reflexivity|].
        transitivity (report_content (replay (replay job body) (recording r)));
          [reflexivity|].
        rewrite Hrec. exact Hcontent.
  - set (body := starting :: flat_map file_block done
                 ++ [summarizing f; Call (prompt_of f) 3 inner (Raise e)]).
    assert (Hrun : trace_of (process_report_task env job) s
                   = body ++ [error_event e; SetComplete]).
    { rewrite Ht. unfold body. cbn. rewrite <- app_assoc. reflexivity. }
    assert (Hbody : Forall (fun a => quiet a = true) body).
    { unfold body. constructor; [reflexivity|]. apply Forall_app. split;
        [apply quiet_blocks | repeat constructor]. }
    destruct (quiet_run body Hbody job) as [_ (_ & Hcontent & _)].
    exists (appends_in body), (mkUpdate "error" (error_message e)).
    assert (Hlen : length (appends_in body) = length done + 2).
    { unfold body. change (starting :: ?t) with ([starting] ++ t).
      rewrite !appends_in_app, appends_in_blocks. cbn.
      rewrite length_app, length_map. cbn. lia. }
    assert (Hn : length (files job) = length done + S (length rest)).
    { rewrite Hfiles, length_app, length_map. reflexivity. }
    repeat split.
    + rewrite Hrun, status_updates_replay, Hempty, !appends_in_app. cbn.
      reflexivity.
    + unfold body. change (starting :: ?t) with ([starting] ++ t).
      rewrite !appends_in_app. repeat (apply Forall_app; split);
        try apply Hstatus; repeat constructor.
    + lia.
    + lia.
    + rewrite Hres. split; [reflexivity|].
      rewrite Hrun, replay_app. cbn. exact Hcontent.
Qed.

Lemma finished_job_events_witness :
  let final := Sample.finished in
  exists statuses last,
    status_updates final = statuses ++ [last]
    /\ Forall (fun u => is_status u = true) statuses
    /\ 1 <= length statuses <= length (files Sample.job_ab) + 3
    /\ match result_of (pipeline Sample.env_ok Sample.job_ab) Sample.start with
       | Ok _ =>
           last = mkUpdate "report" "Report content generated."
           /\ length statuses = length (files Sample.job_ab) + 3
           /\ exists md, report_content final = Some md /\ md <> ""
       | Raise e =>
           last = mkUpdate "error"
                    ("An error occurred during report processing: "
                     +:+ exc_str e)
           /\ report_content final = report_content Sample.job_ab
       end.
Proof.
  apply (finished_job_events Sample.env_ok Sample.job_ab Sample.start).
  reflexivity.
Defined.

(* ===================================================================== *)
(** ** Looking at a job while its task runs *)
(* ===================================================================== *)

Lemma later_refl (j : Job) : later j j.
Proof. repeat split; auto. Qed.

Lemma later_trans (j1 j2 j3 : Job) : later j1 j2 -> later j2 j3 -> later j1 j3.
Proof.
  intros (Hp & Hf & Hc) (Hp' & Hf' & Hc'). repeat split.
  - etrans; eassumption.
  - congruence.
  - auto.
Qed.

Lemma later_step (a : Action) (j : Job) : later j (apply_action a j).
Proof.
  destruct a; cbn; try apply later_refl; repeat split; cbn; auto.
  apply prefix_app_r. reflexivity.
Qed.

Lemma states_sorted (t : list Action) :
  forall j, StronglySorted later (j :: states j t).
Proof.
  induction t as [|a t IH]; intros j; cbn [states].
  - repeat constructor.
  - specialize (IH (apply_action a j)). constructor; [exact IH|].
    apply StronglySorted_inv in IH as [_ Hall].
    constructor; [apply later_step|].
    eapply Forall_impl; [exact Hall|]. intros j'. cbn.
    apply later_trans, later_step.
Qed.

Lemma states_later_final (t : list Action) :
  forall j j', j' ∈ j :: states j t -> later j' (replay j t).
Proof.
  induction t as [|a t IH]; intros j j' Hin; cbn [states] in Hin.
  - apply list_elem_of_singleton in Hin as ->. apply later_refl.
  - change (replay j (a :: t)) with (replay (apply_action a j) t).
    apply elem_of_cons in Hin as [-> | Hin].
    + eapply later_trans; [apply later_step|].
      apply IH. apply elem_of_cons. auto.
    + apply IH, Hin.
Qed.

Lemma sorted_sublist {A} (R : relation A) (l1 l2 : list A) :
  l1 `sublist_of` l2 -> StronglySorted R l2 -> StronglySorted R l1.
Proof.
  induction 1 as [|x l1 l2 Hsub IH|x l1 l2 Hsub IH]; intros Hsorted.
  - constructor.
  - apply StronglySorted_inv in Hsorted as [Hs Hall].
    constructor; [apply IH, Hs|].
    apply Forall_forall. intros y Hy.
    rewrite Forall_forall in Hall. apply Hall.
    eapply elem_of_sublist; eassumption.
  - apply StronglySorted_inv in Hsorted as [Hs _]. apply IH, Hs.
Qed.

Lemma growing_sorted (l : list Job) :
  StronglySorted later l ->
  forall sent,
    Forall (fun j => sent `prefix_of` status_updates j) l ->
    growing sent (map steady_poll l).
Proof.
  induction 1 as [|j l Hs IH Hall]; intros sent Hsent; cbn; [exact I|].
  apply Forall_cons_1 in Hsent as [Hj _]. split; [exact Hj|].
  apply IH. eapply Forall_impl; [exact Hall|]. intros j' (Hp & _). exact Hp.
Qed.

(** A client that follows the stream of a job while its task runs: when
    the turns of the stream see the job at points of the run, in order,
    before the flag is set, unchanged during the yields, and at last see
    the finished job, the client receives every event of the finished
    job once, in order, then the done message, and the stream ends. *)
Theorem stream_of_a_run (env : Env) (job : Job) (s : Counters)
    (jobs : gmap string Job) (job_id : string) (seen : list Job) :
  let t := trace_of (process_report_task env job) s in
  let final := replay job t in
  seen `sublist_of` (job :: states job t) ->
  Forall (fun j => is_complete j = false) seen ->
  is_Some (jobs !! job_id) ->
  stream_status jobs job_id (map steady_poll seen ++ [steady_poll final])
  = Returns (map sse_update (status_updates final) ++ [sse Json.dumps_done],
             Finished).
Proof.
  intros t final Hsub Hopen [j0 Hj0]. unfold stream_status. rewrite Hj0.
  assert (Hdone : is_complete final = true).
  { destruct (process_report_task_split env job s)
      as (body & r & Ht & _).
    unfold final, t. rewrite Ht, !replay_app. reflexivity. }
  assert (Hsorted : StronglySorted later (seen ++ [final])).
  { apply StronglySorted_app. split; [|split].
    - intros j1 j2 H1 H2. apply list_elem_of_singleton in H2 as ->.
      apply states_later_final. eapply elem_of_sublist; eassumption.
    - eapply sorted_sublist; [exact Hsub | apply states_sorted].
    - repeat constructor. }
  change 0 with (length (@nil Update)).
  rewrite (event_generator_steady (map steady_poll seen) (steady_poll final) []).
  - reflexivity.
  - apply Forall_map. eapply Forall_impl; [exact Hopen|].
    intros j Hj. cbn. repeat split; auto.
  - split; reflexivity.
  - exact Hdone.
  - change [steady_poll final] with (map steady_poll [final]).
    rewrite <- map_app. apply growing_sorted; [exact Hsorted|].
    apply Forall_forall. intros j _. apply prefix_nil.
Qed.

Lemma stream_of_a_run_witness :
  let jobs : gmap string Job := {[ "job-1" := Sample.job_ab ]} in
  stream_status jobs "job-1"
    (map steady_poll [Sample.job_ab; Sample.awaiting_final]
     ++ [steady_poll Sample.finished])
  = Returns (map sse_update (status_updates Sample.finished)
             ++ [sse Json.dumps_done],
             Finished).
Proof.
  apply (stream_of_a_run Sample.env_ok Sample.job_ab Sample.start
           {[ "job-1" := Sample.job_ab ]} "job-1"
           [Sample.job_ab; Sample.awaiting_final]).
  - vm_compute.
    repeat first [apply sublist_skip | apply sublist_cons | apply sublist_nil].
  - repeat constructor.
  - eexists. vm_compute. reflexivity.
Defined.

(* ===================================================================== *)
(** ** From the upload to the download *)
(* ===================================================================== *)

(** The report text of a job when its run is over. *)
Lemma report_content_after_run (env : Env) (job : Job) (s : Counters) :
  let final := replay job (trace_of (process_report_task env job) s) in
  match result_of (pipeline env job) s with
  | Ok _ => exists md, report_content final = Some md /\ md <> ""
  | Raise _ => report_content final = report_content job
  end.
Proof.
  intros final. subst final.
  destruct (process_report_task_split env job s)
    as (body & r & Ht & Hquiet & Hres & _).
  destruct (quiet_run body Hquiet job) as [_ (_ & Hcontent & _)].
  rewrite Hres, Ht, !replay_app.
  pose proof (report_content_recording r (replay job body)) as Hrec.
  destruct (pipeline_outcome r) as [[]|e].
  - destruct Hrec as (md & Hmd & Hne). exists md. split; [exact Hmd|exact Hne].
  - transitivity (report_content (replay (replay job body) (recording r)));
      [reflexivity|].
    rewrite Hrec. exact Hcontent.
Qed.

(** A job from its upload to its download.  Right after an upload that
    returned an identifier, the download of that identifier answers 404
    and the stream of it is accepted.  Once the task scheduled for it has
    run, the task has returned.  When the [try] of the run ended well the
    job holds a text that is not empty, and the download returns the
    document of that text if python-docx takes every block of it, and
    otherwise leaves the endpoint with the [ValueError] of python-docx,
    a status 500.  When the [try] ended with an exception the download
    answers 404. *)
Theorem upload_run_download
    (pdf_text : list Byte.byte -> Result string)
    (decode : list Byte.byte -> string)
    (docx_save : list Block -> list Byte.byte)
    (uuid4 : string) (jobs : gmap string Job)
    (file1 file2 file3 file4 : option UploadFile)
    (job_id : string) (jobs' : gmap string Job) (tasks : list string) :
  upload_files_for_processing pdf_text decode uuid4 jobs
    file1 file2 file3 file4
  = (Returns job_id, jobs', tasks) ->
  tasks = [job_id]
  /\ download_report docx_save jobs' job_id
     = HTTPException 404 "Report not found or not yet complete."
  /\ (forall schedule,
        stream_status jobs' job_id schedule
        = Returns (event_generator schedule 0))
  /\ exists created,
       jobs' !! job_id = Some created
       /\ forall (env : Env) (s : Counters),
            exists t final,
              process_report_task_in env jobs' job_id s
              = (Ok tt, <[job_id := final]> jobs', t)
              /\ match result_of (pipeline env created) s with
                 | Ok _ =>
                     exists md,
                       md <> ""
                       /\ report_content final = Some md
                       /\ download_report docx_save
                            (<[job_id := final]> jobs') job_id
                          = if forallb
                                 (fun b => string_forall xml_char (block_text b))
                                 (document_of md)
                            then Returns
                                   (mkAttachment (docx_save (document_of md))
                                      docx_media_type
                                      [("Content-Disposition",
                                        "attachment; filename="
                                        +:+ report_filename job_id)])
                            else Unhandled
                                   (mkExc "ValueError"
                                      "All strings must be XML compatible: Unicode or ASCII, no NULL bytes or control characters")
                 | Raise _ =>
                     download_report docx_save
                       (<[job_id := final]> jobs') job_id
                     = HTTPException 404 "Report not found or not yet complete."
                 end.
Proof.
  intros Hup. unfold upload_files_for_processing in Hup.
  destruct (omap provided [file1; file2; file3; file4]) as [|f given];
    [discriminate|].
  injection Hup as <- <- <-.
  set (created := mkJob _ [] false None).
  assert (Hcreated : <[uuid4 := created]> jobs !! uuid4 = Some created)
    by apply lookup_insert_eq.
  repeat split.
  - unfold download_report. rewrite Hcreated. reflexivity.
  - intros schedule. unfold stream_status. rewrite Hcreated. reflexivity.
  - exists created. split; [exact Hcreated|]. intros env s.
    unfold process_report_task_in. rewrite Hcreated.
    pose proof (process_report_task_returns env created s) as Hret.
    pose proof (report_content_after_run env created s) as Hcontent.
    unfold result_of in Hret. unfold trace_of in Hcontent.
    destruct (process_report_task env created s) as [[res s'] t].
    cbn [fst snd] in Hret, Hcontent. subst res.
    exists t, (replay created t). split; [reflexivity|].
    destruct (result_of (pipeline env created) s) as [[]|e].
    + destruct Hcontent as (md & Hmd & Hne). exists md. split; [exact Hne|].
      split; [exact Hmd|].
      exact (download_stored docx_save _ uuid4 _ md
               (lookup_insert_eq _ _ _) Hmd Hne).
    + unfold download_report. rewrite lookup_insert_eq, Hcontent. reflexivity.
Qed.

Lemma upload_run_download_witness :
  let jobs' : gmap string Job :=
    <["job-1" := mkJob [mkFileInfo "a.txt" ""] [] false None]> ∅ in
  [ "job-1" ] = [ "job-1" ]
  /\ download_report Sample.no_save jobs' "job-1"
     = HTTPException 404 "Report not found or not yet complete."
  /\ (forall schedule,
        stream_status jobs' "job-1" schedule
        = Returns (event_generator schedule 0))
  /\ exists created,
       jobs' !! "job-1" = Some created
       /\ forall (env : Env) (s : Counters),
            exists t final,
              process_report_task_in env jobs' "job-1" s
              = (Ok tt, <["job-1" := final]> jobs', t)
              /\ match result_of (pipeline env created) s with
                 | Ok _ =>
                     exists md,
                       md <> ""
                       /\ report_content final = Some md
                       /\ download_report Sample.no_save
                            (<["job-1" := final]> jobs') "job-1"
                          = if forallb
                                 (fun b => string_forall xml_char (block_text b))
                                 (document_of md)
                            then Returns
                                   (mkAttachment (Sample.no_save (document_of md))
                                      docx_media_type
                                      [("Content-Disposition",
                                        "attachment; filename="
                                        +:+ report_filename "job-1")])
                            else Unhandled
                                   (mkExc "ValueError"
                                      "All strings must be XML compatible: Unicode or ASCII, no NULL bytes or control characters")
                 | Raise _ =>
                     download_report Sample.no_save
                       (<["job-1" := final]> jobs') "job-1"
                     = HTTPException 404 "Report not found or not yet complete."
                 end.
Proof.
  apply (upload_run_download (fun _ => Ok "") (fun _ => "") Sample.no_save
           "job-1" ∅ (Some (mkUploadFile (Some "a.txt") [])) None None None
           "job-1" (<["job-1" := mkJob [mkFileInfo "a.txt" ""] [] false None]> ∅)
           [ "job-1" ]).
  reflexivity.
Defined.

(* ===================================================================== *)
(** ** The document renderer: results *)
(* ===================================================================== *)

Lemma append_cons (c : ascii) (s t : string) :
  String c s +:+ t = String c (s +:+ t).
Proof. reflexivity. Qed.

Lemma append_nil_l (t : string) : "" +:+ t = t.
Proof. reflexivity. Qed.

Lemma rstrip_no_trailing_space (s : string) :
  ends_with_space (Py.rstrip s) = false.
Proof.
  induction s as [|c s IH]; [reflexivity|].
  cbn [Py.rstrip]. destruct (Py.rstrip s) as [|c' r] eqn:Hr.
  - destruct (Py.isspace c) eqn:Hc; [reflexivity | cbn; exact Hc].
  - exact IH.
Qed.

Lemma prefix_drop (p s : string) :
  String.prefix p s = true -> s = p +:+ Py.drop (String.length p) s.
Proof.
  revert s. induction p as [|c p IH]; intros s Hp; [reflexivity|].
  destruct s as [|c' s]; [discriminate|]. cbn in Hp.
  destruct (Ascii.ascii_dec c c') as [->|Hne]; [|discriminate].
  rewrite append_cons. cbn [String.length Py.drop]. f_equal. apply IH, Hp.
Qed.

(** Behind a marker that ends in a space, a stripped line has text. *)
Lemma text_behind_marker (marker line : string) :
  ends_with_space marker = true ->
  String.prefix marker (Py.strip line) = true ->
  Py.drop (String.length marker) (Py.strip line) <> "".
Proof.
  intros Hmarker Hp Hempty. apply prefix_drop in Hp. rewrite Hempty in Hp.
  assert (Hs : Py.strip line = marker).
  { rewrite Hp. clear. induction marker as [|c m IH]; [reflexivity|].
    rewrite append_cons. f_equal. exact IH. }
  pose proof (rstrip_no_trailing_space (Py.lstrip line)) as Hno.
  fold (Py.strip line) in Hno. rewrite Hs in Hno. congruence.
Qed.

Lemma render_line_cases (line : string) :
  (nonblank line = false /\ render_line line = [])
  \/ (nonblank line = true
      /\ exists b, render_line line = [b] /\ well_formed_block b).
Proof.
  unfold render_line, nonblank, Py.startswith.
  destruct (String.prefix "### " (Py.strip line)) eqn:H3.
  { right. pose proof (text_behind_marker "### " line eq_refl H3) as Hne.
    split; [destruct (Py.strip line); [discriminate|reflexivity]|].
    eexists. split; [reflexivity|]. split; [exact Hne | lia]. }
  destruct (String.prefix "## " (Py.strip line)) eqn:H2.
  { right. pose proof (text_behind_marker "## " line eq_refl H2) as Hne.
    split; [destruct (Py.strip line); [discriminate|reflexivity]|].
    eexists. split; [reflexivity|]. split; [exact Hne | lia]. }
  destruct (String.prefix "# " (Py.strip line)) eqn:H1.
  { right. pose proof (text_behind_marker "# " line eq_refl H1) as Hne.
    split; [destruct (Py.strip line); [discriminate|reflexivity]|].
    eexists. split; [reflexivity|]. split; [exact Hne | lia]. }
  destruct (String.prefix "* " (Py.strip line)) eqn:Hstar.
  { right. pose proof (text_behind_marker "* " line eq_refl Hstar) as Hne.
    split; [destruct (Py.strip line); [discriminate|reflexivity]|].
    eexists. split; [reflexivity|]. split; [exact Hne | auto]. }
  destruct (String.prefix "- " (Py.strip line)) eqn:Hdash.
  { right. pose proof (text_behind_marker "- " line eq_refl Hdash) as Hne.
    split; [destruct (Py.strip line); [discriminate|reflexivity]|].
    eexists. split; [reflexivity|]. split; [exact Hne | auto]. }
  cbn [orb]. destruct (Py.strip line) as [|c rest] eqn:Hs.
  - left. split; reflexivity.
  - right. split; [reflexivity|]. eexists. split; [reflexivity|].
    split; [discriminate | auto].
Qed.

Lemma render_line_nonblank (line : string) :
  nonblank line = true ->
  render_line line
  = [ let line := Py.strip line in
      if Py.startswith "### " line then Heading (Py.drop 4 line) 3
      else if Py.startswith "## " line then Heading (Py.drop 3 line) 2
      else if Py.startswith "# " line then Heading (Py.drop 2 line) 1
      else if Py.startswith "* " line || Py.startswith "- " line
           then Paragraph (Py.drop 2 line) (Some "List Bullet")
      else Paragraph line None ].
Proof.
  unfold nonblank, render_line. cbv zeta. intros Hline.
  destruct (Py.startswith "### " (Py.strip line)); [reflexivity|].
  destruct (Py.startswith "## " (Py.strip line)); [reflexivity|].
  destruct (Py.startswith "# " (Py.strip line)); [reflexivity|].
  destruct (Py.startswith "* " (Py.strip line)
            || Py.startswith "- " (Py.strip line)); [reflexivity|].
  destruct (Py.strip line); [discriminate | reflexivity].
Qed.

(** The blocks [create_docx_report] hands to python-docx for a report
    text: the fixed title as a heading of level 0, then, line by line in
    the order of the lines, nothing for a blank line and one block for
    any other: for a stripped line that starts with [### ], [## ] or
    [# ] a heading of level 3, 2 or 1 with the rest of the line, for one
    that starts with [* ] or [- ] a bullet paragraph with the rest, and
    a plain paragraph with the stripped line otherwise; every block has
    text.  The function returns the document of these blocks when
    python-docx takes the text of each of them, and raises its
    [ValueError] when one holds a control character other than a tab, a
    line feed or a carriage return. *)
Theorem document_blocks (report_markdown : string) :
  let lines := Py.split (ascii_of_nat 10) report_markdown in
  exists blocks,
    document_of report_markdown
    = Heading "Consolidated Security Report" 0 :: blocks
    /\ length blocks = length (List.filter nonblank lines)
    /\ Forall well_formed_block blocks
    /\ Forall2
         (fun line b =>
            let line := Py.strip line in
            b = if Py.startswith "### " line then Heading (Py.drop 4 line) 3
                else if Py.startswith "## " line then Heading (Py.drop 3 line) 2
                else if Py.startswith "# " line then Heading (Py.drop 2 line) 1
                else if Py.startswith "* " line || Py.startswith "- " line
                     then Paragraph (Py.drop 2 line) (Some "List Bullet")
                else Paragraph line None)
         (List.filter nonblank lines) blocks
    /\ forall docx_save : list Block -> list Byte.byte,
         create_docx_report docx_save report_markdown
         = if forallb (fun b => string_forall xml_char (block_text b)) blocks
           then Ok (docx_save
                      (Heading "Consolidated Security Report" 0 :: blocks))
           else Raise
                  (mkExc "ValueError"
                     "All strings must be XML compatible: Unicode or ASCII, no NULL bytes or control characters").
Proof.
  intros lines. subst lines.
  exists (flat_map render_line (Py.split (ascii_of_nat 10) report_markdown)).
  split; [reflexivity|].
  assert (Hblocks :
    forall lines,
      length (flat_map render_line lines) = length (List.filter nonblank lines)
      /\ Forall well_formed_block (flat_map render_line lines)
      /\ Forall2
           (fun line b =>
              let line := Py.strip line in
              b = if Py.startswith "### " line then Heading (Py.drop 4 line) 3
                  else if Py.startswith "## " line
                       then Heading (Py.drop 3 line) 2
                  else if Py.startswith "# " line
                       then Heading (Py.drop 2 line) 1
                  else if Py.startswith "* " line || Py.startswith "- " line
                       then Paragraph (Py.drop 2 line) (Some "List Bullet")
                  else Paragraph line None)
           (List.filter nonblank lines) (flat_map render_line lines)).
  { induction lines as [|line lines (Hlen & Hwf & Horder)].
    - cbn. split; [reflexivity|]. split; constructor.
    - cbn [flat_map List.filter].
      destruct (render_line_cases line) as [[Hblank ->] | (Hline & b & Hb & Hok)].
      + rewrite Hblank. cbn [app]. auto.
      + rewrite Hline, Hb. cbn [app length]. split; [lia|].
        split; [apply Forall_cons_2; assumption|].
        apply Forall2_cons_2; [|exact Horder].
        pose proof (render_line_nonblank line Hline) as Hexplicit.
        rewrite Hb in Hexplicit. injection Hexplicit as ->. reflexivity. }
  destruct (Hblocks (Py.split (ascii_of_nat 10) report_markdown))
    as (Hlen & Hwf & Horder).
  split; [exact Hlen|]. split; [exact Hwf|]. split; [exact Horder|].
  intros docx_save. reflexivity.
Qed.

Lemma split_nonempty (sep : ascii) (s : string) : Py.split sep s <> [].
Proof.
  destruct s as [|c s]; cbn; [discriminate|].
  destruct (Ascii.eqb c sep); [discriminate|].
  destruct (Py.split sep s); discriminate.
Qed.

Lemma split_app (sep : ascii) (a b : string) :
  Py.split sep (a +:+ String sep b) = Py.split sep a ++ Py.split sep b.
Proof.
  induction a as [|c a IH].
  - rewrite append_nil_l. cbn [Py.split]. rewrite Ascii.eqb_refl. reflexivity.
  - rewrite append_cons. cbn [Py.split]. rewrite IH.
    destruct (Ascii.eqb c sep); [reflexivity|].
    destruct (Py.split sep a) as [|piece pieces] eqn:Ha.
    + exfalso. exact (split_nonempty sep a Ha).
    + reflexivity.
Qed.

(** The renderer works line by line: the document of two texts joined by
    a line feed is the document of the first followed by the blocks of
    the second. *)
Theorem document_of_lines (a b : string) :
  document_of (a +:+ Py.LF +:+ b) = document_of a ++ tail (document_of b).
Proof.
  unfold document_of. cbn [tail].
  change (Py.LF +:+ b) with (String (ascii_of_nat 10) b).
  rewrite split_app, flat_map_app. reflexivity.
Qed.

(* ===================================================================== *)
(** ** Text extraction and token counts *)
(* ===================================================================== *)

Lemma length_append (a b : string) :
  String.length (a +:+ b) = String.length a + String.length b.
Proof.
  induction a as [|c a IH]; [reflexivity|].
  rewrite append_cons. cbn [String.length]. rewrite IH. reflexivity.
Qed.

Lemma lower_append (a b : string) :
  Py.lower (a +:+ b) = Py.lower a +:+ Py.lower b.
Proof.
  induction a as [|c a IH]; [reflexivity|].
  rewrite append_cons. cbn [Py.lower]. rewrite IH. reflexivity.
Qed.

Lemma drop_append (a b : string) :
  Py.drop (String.length a) (a +:+ b) = b.
Proof. induction a as [|c a IH]; [reflexivity | exact IH]. Qed.

Lemma endswith_append (a p : string) : Py.endswith p (a +:+ p) = true.
Proof.
  unfold Py.endswith. rewrite length_append.
  replace (String.length a + String.length p - String.length p)
    with (String.length a) by lia.
  rewrite drop_append, String.eqb_refl.
  apply andb_true_intro. split; [apply Nat.leb_le; lia | reflexivity].
Qed.

Lemma lower_length (s : string) : String.length (Py.lower s) = String.length s.
Proof. induction s as [|c s IH]; [reflexivity | cbn; rewrite IH; reflexivity]. Qed.

(** Which files are read as PDF, and what a failed extraction comes to.
    A file whose name ends in .pdf, in any mix of upper and lower case,
    gets the text PyMuPDF extracts, and the empty text, so 0 tokens, when
    PyMuPDF raises: no exception leaves the function.  A file without a
    name gets its bytes decoded. *)
Theorem pdf_files_by_suffix
    (pdf_text : list Byte.byte -> Result string)
    (decode : list Byte.byte -> string)
    (stem suffix : string) (bytes : list Byte.byte) :
  Py.lower suffix = ".pdf" ->
  let file := mkUploadFile (Some (stem +:+ suffix)) bytes in
  get_text_from_file pdf_text decode file
  = match pdf_text bytes with Ok text => text | Raise _ => "" end
  /\ (forall e, pdf_text bytes = Raise e ->
                count_tokens_endpoint pdf_text decode file = 0)
  /\ get_text_from_file pdf_text decode (mkUploadFile None bytes)
     = decode bytes
  /\ count_tokens_endpoint pdf_text decode (mkUploadFile None bytes)
     = String.length (decode bytes) / 4.
Proof.
  intros Hsuffix file. subst file.
  assert (Hpdf : get_text_from_file pdf_text decode
                   (mkUploadFile (Some (stem +:+ suffix)) bytes)
                 = match pdf_text bytes with
                   | Ok text => text
                   | Raise _ => ""
                   end).
  { unfold get_text_from_file. cbn [uf_filename uf_bytes].
    change (default "" (Some (stem +:+ suffix))) with (stem +:+ suffix).
    rewrite lower_append, Hsuffix, endswith_append.
    assert (Htruthy : Py.truthy_opt (Some (stem +:+ suffix)) = true).
    { destruct suffix as [|c suffix]; [discriminate|].
      destruct stem; reflexivity. }
    rewrite Htruthy. reflexivity. }
  repeat split.
  - exact Hpdf.
  - intros e He. unfold count_tokens_endpoint. rewrite Hpdf, He. reflexivity.
Qed.

Lemma pdf_files_by_suffix_witness :
  let pdf_text : list Byte.byte -> Result string :=
    fun _ => Raise (mkExc "FileDataError" "cannot open broken document") in
  let decode : list Byte.byte -> string := fun _ => "plain text" in
  let file := mkUploadFile (Some ("Scan" +:+ ".PdF")) [] in
  get_text_from_file pdf_text decode file
  = match pdf_text [] with Ok text => text | Raise _ => "" end
  /\ (forall e, pdf_text [] = Raise e ->
                count_tokens_endpoint pdf_text decode file = 0)
  /\ get_text_from_file pdf_text decode (mkUploadFile None [])
     = decode []
  /\ count_tokens_endpoint pdf_text decode (mkUploadFile None [])
     = String.length (decode []) / 4.
Proof.
  apply (pdf_files_by_suffix
           (fun _ => Raise (mkExc "FileDataError" "cannot open broken document"))
           (fun _ => "plain text") "Scan" ".PdF" []).
  reflexivity.
Defined.

(** The token estimate of the final prompt against the base count that
    [/config] returns: the template takes 3402 characters, so the prompt
    built around a text takes the base count, 850, plus the estimate of
    the text, or one token more. *)
Theorem final_prompt_tokens (consolidated_content : string) :
  let n := String.length consolidated_content in
  String.length (PROMPT_TEMPLATE_format consolidated_content) = 3402 + n
  /\ count_tokens (PROMPT_TEMPLATE_format consolidated_content)
     = 850 + (n + 2) / 4
  /\ get_config + count_tokens consolidated_content
     <= count_tokens (PROMPT_TEMPLATE_format consolidated_content)
  /\ count_tokens (PROMPT_TEMPLATE_format consolidated_content)
     <= get_config + count_tokens consolidated_content + 1.
Proof.
  intros n. subst n.
  assert (Hlen : String.length (PROMPT_TEMPLATE_format consolidated_content)
                 = 3402 + String.length consolidated_content).
  { unfold PROMPT_TEMPLATE_format. rewrite !length_append.
    assert (Hhead : String.length PROMPT_TEMPLATE_head = 3374)
      by (vm_compute; reflexivity).
    assert (Htail : String.length PROMPT_TEMPLATE_tail = 28)
      by (vm_compute; reflexivity).
    rewrite Hhead, Htail. lia. }
  assert (Hbase : get_config = 850) by (vm_compute; reflexivity).
  unfold count_tokens, Py.len. rewrite Hlen, Hbase.
  repeat split.
  - replace (3402 + String.length consolidated_content)
      with (String.length consolidated_content + 2 + 850 * 4) by lia.
    rewrite Nat.div_add by lia. lia.
  - pose proof (Nat.div_mod_eq (String.length consolidated_content) 4).
    pose proof (Nat.div_mod_eq (3402 + String.length consolidated_content) 4).
    pose proof (Nat.mod_upper_bound (String.length consolidated_content) 4).
    pose proof (Nat.mod_upper_bound (3402 + String.length consolidated_content) 4).
    lia.
  - pose proof (Nat.div_mod_eq (String.length consolidated_content) 4).
    pose proof (Nat.div_mod_eq (3402 + String.length consolidated_content) 4).
    pose proof (Nat.mod_upper_bound (String.length consolidated_content) 4).
    pose proof (Nat.mod_upper_bound (3402 + String.length consolidated_content) 4).
    lia.
Qed.

(* ===================================================================== *)
(** ** The messages of the stream *)
(* ===================================================================== *)

Lemma string_forall_append (P : ascii -> bool) (a b : string) :
  string_forall P (a +:+ b) = string_forall P a && string_forall P b.
Proof.
  induction a as [|c a IH]; [reflexivity|].
  rewrite append_cons. cbn [string_forall]. rewrite IH, andb_assoc.
  reflexivity.
Qed.

Lemma escape_char_printable (c : ascii) :
  string_forall printable (Json.escape_char c) = true.
Proof. destruct c as [[] [] [] [] [] [] [] []]; reflexivity. Qed.

Lemma escape_printable (s : string) :
  string_forall printable (Json.escape s) = true.
Proof.
  induction s as [|c s IH]; [reflexivity|].
  cbn [Json.escape]. rewrite string_forall_append, escape_char_printable, IH.
  reflexivity.
Qed.

Lemma quoted_printable (s : string) :
  string_forall printable (Json.quoted s) = true.
Proof.
  unfold Json.quoted. rewrite !string_forall_append, escape_printable.
  reflexivity.
Qed.

Lemma printable_no_line_break (s : string) :
  string_forall printable s = true -> string_forall no_line_break s = true.
Proof.
  induction s as [|c s IH]; [reflexivity|]. cbn [string_forall].
  intros [Hc Hs]%andb_prop. rewrite (IH Hs), andb_true_r.
  unfold printable in Hc. unfold no_line_break.
  apply andb_prop in Hc as [Hlo _]. apply Nat.leb_le in Hlo.
  destruct (Nat.eqb_spec (nat_of_ascii c) 10); [lia|].
  destruct (Nat.eqb_spec (nat_of_ascii c) 13); [lia|]. reflexivity.
Qed.

(** Every message of the stream is one event of the event-stream format,
    whatever the texts of the update: the JSON after [data: ] is made of
    characters from the space to the tilde only, so a line feed, a
    carriage return, a quote or any character above 126 in a status or
    an error message never breaks the line; the message ends with the
    two line feeds. *)
Theorem sse_message_is_one_line (u : Update) :
  sse_update u = "data: " +:+ Json.dumps_update u +:+ Py.LF +:+ Py.LF
  /\ string_forall printable (Json.dumps_update u) = true
  /\ string_forall no_line_break (Json.dumps_update u) = true
  /\ string_forall printable Json.dumps_done = true.
Proof.
  assert (Hp : string_forall printable (Json.dumps_update u) = true).
  { unfold Json.dumps_update.
    rewrite !string_forall_append, !quoted_printable. reflexivity. }
  repeat split; [exact Hp | apply printable_no_line_break, Hp].
Qed.

(** The stream can be followed turn by turn: running it over two runs of
    turns, one after the other, is running it over the first and, when
    that leaves it in its loop, going on over the second from the index
    it reached; once it has ended, later turns change nothing. *)
Theorem event_generator_app (l1 l2 : list Poll) :
  forall last_sent_index,
    event_generator (l1 ++ l2) last_sent_index
    = match event_generator l1 last_sent_index with
      | (sent, Polling k) =>
          let '(more, ending) := event_generator l2 k in (sent ++ more, ending)
      | ended => ended
      end.
Proof.
  induction l1 as [|p l1 IH]; intros k.
  - cbn. destruct (event_generator l2 k). reflexivity.
  - cbn [app event_generator].
    destruct (disconnected p); [reflexivity|].
    destruct (if k <? length (status_updates (at_read p)) then _ else _)
      as [[sent k'] j].
    destruct (is_complete j); [reflexivity|].
    rewrite IH.
    destruct (event_generator l1 k') as [more [ | |k'']]; try reflexivity.
    destruct (event_generator l2 k'') as [more2 ending].
    rewrite app_assoc. reflexivity.
Qed.

(** How the stream ends.  It sends the done message only as its last
    message and only from a turn that saw the flag set: over turns that
    never see the flag it does not finish.  A turn that finds the client
    gone ends the stream at once, with nothing sent in that turn. *)
Theorem stream_endings (schedule : list Poll) :
  forall last_sent_index,
    (forall sent,
        event_generator schedule last_sent_index = (sent, Finished) ->
        exists front, sent = front ++ [sse Json.dumps_done])
    /\ (Forall (fun p => is_complete (at_read p) = false
                         /\ is_complete (after_yields p) = false) schedule ->
        snd (event_generator schedule last_sent_index) <> Finished)
    /\ (forall p rest,
          schedule = p :: rest -> disconnected p = true ->
          event_generator schedule last_sent_index = ([], Disconnected)).
Proof.
  induction schedule as [|p schedule IH]; intros k.
  - cbn. repeat split; try discriminate.
  - split; [|split].
    + intros sent. cbn [event_generator].
      destruct (disconnected p); [discriminate|].
      destruct (if k <? length (status_updates (at_read p)) then _ else _)
        as [[out k'] j].
      destruct (is_complete j).
      * intros [= <-]. eauto.
      * destruct (IH k') as [Hdone _].
        destruct (event_generator schedule k') as [more ending].
        intros [= <- ->]. destruct (Hdone more eq_refl) as [front ->].
        exists (out ++ front). apply app_assoc.
    + intros Hopen. apply Forall_cons_1 in Hopen as [[Hread Hafter] Hopen].
      cbn [event_generator].
      destruct (disconnected p); [discriminate|].
      destruct (k <? length (status_updates (at_read p)));
        rewrite ?Hread, ?Hafter.
      * destruct (IH (length (status_updates (after_yields p))))
          as (_ & Hk' & _).
        specialize (Hk' Hopen).
        destruct (event_generator schedule
                    (length (status_updates (after_yields p))))
          as [more ending].
        exact Hk'.
      * destruct (IH k) as (_ & Hk & _). specialize (Hk Hopen).
        destruct (event_generator schedule k) as [more ending]. exact Hk.
    + intros p' rest [= <- <-] Hgone. cbn [event_generator].
      rewrite Hgone. reflexivity.
Qed.

(* ===================================================================== *)
(** ** Configuration at start-up: results *)
(* ===================================================================== *)

Lemma getenv_str_truthy (environ : gmap string string) (name : string) :
  Py.truthy (getenv_str environ name) = false <-> environ !! name = Some "".
Proof.
  unfold getenv_str. destruct (environ !! name) as [[|c v]|]; cbn;
    split; congruence.
Qed.

(** The check of the settings lets a variable that is not set through:
    it reads as the text None, which is not empty.  The check fails, and
    the application exits, exactly when one of the three variables is set
    to the empty string, or when the constructor of the client raises;
    with nothing set at all the application serves with None as its
    endpoint, key and deployment.  The connection test has the same check
    and, with nothing set, prints None as the endpoint and goes on to the
    request. *)
Theorem unset_variables_pass_the_check (environ : gmap string string) :
  (settings_complete (read_settings environ) = false
   <-> environ !! "AZURE_OPENAI_ENDPOINT" = Some ""
       \/ environ !! "AZURE_OPENAI_API_KEY" = Some ""
       \/ environ !! "AZURE_OPENAI_DEPLOYMENT_NAME" = Some "")
  /\ (forall AzureOpenAI,
        startup environ AzureOpenAI = Exits
        <-> settings_complete (read_settings environ) = false
            \/ exists e, AzureOpenAI (read_settings environ) = Raise e)
  /\ (forall AzureOpenAI,
        AzureOpenAI (mkSettings "None" "None" "None" "2023-12-01-preview")
        = Ok tt ->
        startup ∅ AzureOpenAI
        = Serves (mkSettings "None" "None" "None" "2023-12-01-preview"))
  /\ (forall connect,
        test_connection ∅ connect
        = ["Attempting to connect to Azure OpenAI..."; "Endpoint: None";
           "Deployment: None"]
          ++ match connect (mkSettings "None" "None" "None"
                              "2023-12-01-preview") with
             | Ok content =>
                 [Py.LF +:+ "SUCCESS! Connection established and received a response.";
                  "Response: " +:+ default "None" content]
             | Raise e =>
                 [Py.LF +:+ "FAILURE! An error occurred: " +:+ exc_str e]
             end).
Proof.
  assert (Hcheck : settings_complete (read_settings environ) = false
                   <-> environ !! "AZURE_OPENAI_ENDPOINT" = Some ""
                       \/ environ !! "AZURE_OPENAI_API_KEY" = Some ""
                       \/ environ !! "AZURE_OPENAI_DEPLOYMENT_NAME" = Some "").
  { unfold settings_complete, read_settings.
    cbn [azure_endpoint api_key deployment_name forallb].
    rewrite <- !getenv_str_truthy.
    destruct (Py.truthy (getenv_str environ "AZURE_OPENAI_ENDPOINT")),
      (Py.truthy (getenv_str environ "AZURE_OPENAI_API_KEY")),
      (Py.truthy (getenv_str environ "AZURE_OPENAI_DEPLOYMENT_NAME"));
      cbn; intuition congruence. }
  split; [exact Hcheck|]. split; [|split].
  - intros AzureOpenAI. unfold startup.
    destruct (settings_complete (read_settings environ)); cbn.
    + destruct (AzureOpenAI (read_settings environ)) as [[]|e]; split.
      * discriminate.
      * intros [H | [e H]]; discriminate.
      * eauto.
      * reflexivity.
    + split; auto.
  - intros AzureOpenAI Hok. unfold startup. cbn.
    change (read_settings ∅)
      with (mkSettings "None" "None" "None" "2023-12-01-preview").
    rewrite Hok. reflexivity.
  - intros connect. reflexivity.
Qed.
